(** * demo-maquette: the monitoring dashboard of [app.py]

    A shallow embedding of the two pieces of logic of [app.py]: the synthetic
    signal generator [generate_fake_data] and the threshold and alarm
    evaluation at the end of [create_page_layout].

    Numbers are the code's own: Python and NumPy floats are IEEE 754 binary64
    values, modelled by Rocq's primitive [float] (the same format, specified
    by [FloatAxioms]).  NumPy's random generator and [np.sin] are external to
    the repository: the arrays the generator hands back are an explicit input
    ([np.RandomSource]), constrained by what NumPy documents of them
    ([app.numpy_contract]); [np.sin] is a parameter.  A run of the script is
    a function from the random source and the selected page to the frame and
    the list of elements put on the page, or to the exception raised. *)

From Stdlib Require Import ZArith Zpower List Floats Uint63 Lia String Ascii Bool DecimalString.
Import ListNotations.

Set Warnings "-inexact-float,-register-all".

(** ** Python values and errors *)

(** The exceptions the modelled operations can raise. *)
Inductive exn := ValueError | IndexError | KeyError.

Inductive result (A : Type) : Type :=
| Ok (a : A)
| Raise (e : exn).

Arguments Ok {A} a.
Arguments Raise {A} e.

Definition bind {A B : Type} (r : result A) (k : A -> result B) : result B :=
  match r with
  | Ok a => k a
  | Raise e => Raise e
  end.

Notation "x <- r ;; k" := (bind r (fun x => k))
  (at level 61, r at next level, right associativity).

(** A one-dimensional [float64] array, and a column of a frame. *)
Definition array := list float.

(** A Python [int] used as a [float] operand. *)
Definition float_of_int (z : Z) : float :=
  if (z <? 0)%Z then (- of_uint63 (Uint63.of_Z (- z)))%float
  else of_uint63 (Uint63.of_Z z).

(** *** Slices and indices *)

Module py.

(** A slice bound [i] of a sequence of length [len], as Python normalises it:
    a negative bound counts from the end, and both ends saturate. *)
Definition slice_bound (len : nat) (i : Z) : nat :=
  if (i <? 0)%Z then Z.to_nat (Z.of_nat len + i)
  else Nat.min (Z.to_nat i) len.

(** [l[i:]] *)
Definition slice_from {A : Type} (i : Z) (l : list A) : list A :=
  skipn (slice_bound (List.length l) i) l.

(** [l[:i]] *)
Definition slice_to {A : Type} (i : Z) (l : list A) : list A :=
  firstn (slice_bound (List.length l) i) l.

(** [l[i]]: a negative index counts from the end; out of range raises. *)
Definition item {A : Type} (i : Z) (l : list A) : result A :=
  let j := if (i <? 0)%Z then (Z.of_nat (List.length l) + i)%Z else i in
  if (j <? 0)%Z then Raise IndexError
  else match nth_error l (Z.to_nat j) with
       | Some a => Ok a
       | None => Raise IndexError
       end.

(** [any(l)] and [sum(l)] of booleans. *)
Definition any (l : list bool) : bool := existsb (fun b => b) l.

Definition sum (l : list bool) : nat := List.length (filter (fun b => b) l).

(** [str(n)] of a non-negative integer. *)
Definition str (n : nat) : string := NilEmpty.string_of_uint (Nat.to_uint n).

(** *** The format [:.2f]

    Python prints the decimal nearest to the exact binary value, ties to
    even, with two digits after the point. *)

Definition round_half_even (num den : Z) : Z :=
  let q := (num / den)%Z in
  match (2 * (num mod den) ?= den)%Z with
  | Lt => q
  | Eq => if Z.even q then q else (q + 1)%Z
  | Gt => (q + 1)%Z
  end.

(** [|x| * 100] rounded to an integer, for [|x| = m * 2^e]. *)
Definition hundredths (m : positive) (e : Z) : Z :=
  match e with
  | Zneg p => round_half_even (Z.pos m * 100) (2 ^ Z.pos p)
  | _ => (Z.pos m * 100 * 2 ^ e)%Z
  end.

Definition two_digits (z : Z) : string :=
  let d := NilEmpty.string_of_uint (N.to_uint (Z.to_N z)) in
  if (z <? 10)%Z then String "0" d else d.

Definition fixed2 (sign : bool) (h : Z) : string :=
  ((if sign then "-" else "")
     ++ NilEmpty.string_of_uint (N.to_uint (Z.to_N (h / 100)))
     ++ "." ++ two_digits (h mod 100))%string.

Definition format_2f (x : float) : string :=
  match Prim2SF x with
  | S754_nan => "nan"
  | S754_infinity s => if s then "-inf" else "inf"
  | S754_zero s => fixed2 s 0
  | S754_finite s m e => fixed2 s (hundredths m e)
  end.

End py.


(** ** NumPy *)

Module np.

Local Open Scope float_scope.

Definition pi : float := 3.141592653589793.

(** [np.arange(n)] *)
Definition arange (n : nat) : list Z := map Z.of_nat (seq 0 n).

(** [np.ones(n)] *)
Definition ones (n : nat) : array := repeat 1.0 n.

(** A scalar with an array: [c * a] and [c + a]. *)
Definition scalar_mul (c : float) (a : array) : array := map (fun x => c * x) a.

Definition scalar_add (c : float) (a : array) : array := map (fun x => c + x) a.

(** [a + b], elementwise: the shapes agree, or a one-element operand is
    broadcast; any other pair of shapes raises. *)
Definition add (a b : array) : result array :=
  if Nat.eqb (List.length a) (List.length b)
  then Ok (map (fun p => fst p + snd p) (combine a b))
  else match a, b with
       | [x], _ => Ok (map (fun y => x + y) b)
       | _, [y] => Ok (map (fun x => x + y) a)
       | _, _ => Raise ValueError
       end.

(** [np.clip] on one element: the lesser of [hi] and the greater of [x] and
    [lo], where a NaN [x] is returned as it is. *)
Definition clip_max (a b : float) : float :=
  if is_nan a then a else if b <? a then a else b.

Definition clip_min (a b : float) : float :=
  if is_nan a then a else if a <? b then a else b.

Definition clip1 (x lo hi : float) : float := clip_min (clip_max x lo) hi.

Definition clip (a : array) (lo hi : float) : array :=
  map (fun x => clip1 x lo hi) a.

(** [a[i:] = b]: [b] has the shape of the slice, or one element. *)
Definition set_slice_from (i : Z) (a b : array) : result array :=
  let k := py.slice_bound (List.length a) i in
  let t := (List.length a - k)%nat in
  if Nat.eqb (List.length b) t then Ok (firstn k a ++ b)
  else match b with
       | [y] => Ok (firstn k a ++ repeat y t)
       | _ => Raise ValueError
       end.

(** [a[:i] = b] *)
Definition set_slice_to (i : Z) (a b : array) : result array :=
  let k := py.slice_bound (List.length a) i in
  if Nat.eqb (List.length b) k then Ok (b ++ skipn k a)
  else match b with
       | [y] => Ok (repeat y k ++ skipn k a)
       | _ => Raise ValueError
       end.

(** *** [np.random]

    The generator is NumPy's, and its state is not the program's: a run is
    modelled over the arrays the four calls of [generate_fake_data] get back.
    [normal_temperature rs i] is element [i] of the array returned by the
    call of line 20, and so on; a call of size [n] returns the first [n]
    elements, so the shape is the one asked for. *)
Record RandomSource : Type := {
  normal_temperature : nat -> float;  (* np.random.normal(0, 2, n), line 20 *)
  normal_vib_iso : nat -> float;      (* np.random.normal(0, 0.3, n), line 24 *)
  normal_vib_ml : nat -> float;       (* np.random.normal(0, 0.25, n), line 29 *)
  uniform_vib_ml : nat -> float       (* np.random.uniform(0.2, 0.8, 10), line 31 *)
}.

Definition random_normal (returned : nat -> float) (loc scale : float) (size : nat)
  : array := map returned (seq 0 size).

Definition random_uniform (returned : nat -> float) (low high : float) (size : nat)
  : array := map returned (seq 0 size).

(** What NumPy documents of the values: a normal deviate is a number, and a
    draw of [uniform(low, high)] lies between [low] and [high] (below [high]
    in exact arithmetic; rounding may return [high] itself). *)
Definition is_number (x : float) : bool := negb (is_nan x).

Definition within (low high x : float) : bool := (low <=? x) && (x <=? high).

End np.

(** ** pandas *)

Module pd.

(** A calendar date, as in the string ['2023-01-01']. *)
Record CalendarDate : Type := { year : Z; month : Z; day : Z }.

(** Days from 1970-01-01 to [d] in the proleptic Gregorian calendar. *)
Definition days_from_civil (d : CalendarDate) : Z :=
  let y := if (month d <=? 2)%Z then (year d - 1)%Z else year d in
  let era := (y / 400)%Z in
  let yoe := (y - era * 400)%Z in
  let mp := ((month d + 9) mod 12)%Z in
  let doy := ((153 * mp + 2) / 5 + day d - 1)%Z in
  let doe := (yoe * 365 + yoe / 4 - yoe / 100 + doy)%Z in
  (era * 146097 + doe - 719468)%Z.

(** A timestamp of an hourly index: hours since 1970-01-01 00:00. *)
Definition Timestamp := Z.

Definition midnight (d : CalendarDate) : Timestamp := (24 * days_from_civil d)%Z.

(** [pd.date_range(start=, end=, freq='H')]: every hour from the midnight of
    [start] to the midnight of [end], both included. *)
Definition date_range (start end_ : CalendarDate) : list Timestamp :=
  map (fun k => (midnight start + Z.of_nat k)%Z)
      (seq 0 (Z.to_nat (midnight end_ - midnight start + 1))).

(** The frame of [app.py]: its four columns, and the column
    ['Above_Threshold'] that [create_page_layout] adds. *)
Record DataFrame : Type := {
  Date : list Timestamp;            (* 'Date' *)
  Temperature : array;               (* 'Temperature (°C)' *)
  Vibration_ISO : array;             (* 'Vibration ISO (mm/s)' *)
  Vibration_ML : array;              (* 'Vibration ML (mm/s)' *)
  Above_Threshold : option (list bool)   (* 'Above_Threshold', once added *)
}.

(** [pd.DataFrame(data)] of a dictionary of arrays: they have one length. *)
Definition new_DataFrame (dates : list Timestamp) (temperature vib_iso vib_ml : array)
  : result DataFrame :=
  let n := List.length dates in
  if Nat.eqb (List.length temperature) n && Nat.eqb (List.length vib_iso) n
     && Nat.eqb (List.length vib_ml) n
  then Ok {| Date := dates; Temperature := temperature; Vibration_ISO := vib_iso;
             Vibration_ML := vib_ml; Above_Threshold := None |}
  else Raise ValueError.

(** [df['Above_Threshold'] = flags] *)
Definition set_Above_Threshold (flags : list bool) (df : DataFrame) : DataFrame :=
  {| Date := Date df; Temperature := Temperature df;
     Vibration_ISO := Vibration_ISO df; Vibration_ML := Vibration_ML df;
     Above_Threshold := Some flags |}.

(** [df['Above_Threshold']] *)
Definition get_Above_Threshold (df : DataFrame) : result (list bool) :=
  match Above_Threshold df with
  | Some flags => Ok flags
  | None => Raise KeyError
  end.

(** [df[mask][column]]: the rows of a column where the mask holds. *)
Definition where_ {A : Type} (mask : list bool) (column : list A) : list A :=
  map snd (filter fst (combine mask column)).

End pd.

(** ** Plotly and Streamlit: what the page shows *)

(** A line trace added to a figure. *)
Record Scatter : Type := {
  sc_x : list pd.Timestamp;
  sc_y : array;
  sc_color : string;
  sc_width : option Z
}.

(** A figure of [px.line]: its line, the traces and the threshold line
    added to it, and its height. *)
Record Figure : Type := {
  fig_x : list pd.Timestamp;
  fig_y : array;
  fig_title : string;
  fig_traces : list Scatter;
  fig_hline : option (float * string);
  fig_height : option Z
}.

Module px.

(** [px.line(df, x=, y=, title=, template='plotly_white')] *)
Definition line (x : list pd.Timestamp) (y : array) (title : string) : Figure :=
  {| fig_x := x; fig_y := y; fig_title := title; fig_traces := [];
     fig_hline := None; fig_height := None |}.

End px.

(** [fig.add_hline(y=, line_color="red", line_dash="dash", annotation_text=)] *)
Definition add_hline (y : float) (annotation_text : string) (fig : Figure) : Figure :=
  {| fig_x := fig_x fig; fig_y := fig_y fig; fig_title := fig_title fig;
     fig_traces := fig_traces fig; fig_hline := Some (y, annotation_text);
     fig_height := fig_height fig |}.

(** [fig.update_layout(height=)] *)
Definition update_layout (height : Z) (fig : Figure) : Figure :=
  {| fig_x := fig_x fig; fig_y := fig_y fig; fig_title := fig_title fig;
     fig_traces := fig_traces fig; fig_hline := fig_hline fig;
     fig_height := Some height |}.

(** [fig.add_scatter(x=, y=, mode='lines', line=, showlegend=False)] *)
Definition add_scatter (sc : Scatter) (fig : Figure) : Figure :=
  {| fig_x := fig_x fig; fig_y := fig_y fig; fig_title := fig_title fig;
     fig_traces := fig_traces fig ++ [sc]; fig_hline := fig_hline fig;
     fig_height := fig_height fig |}.

(** The elements a run of the script puts on the page, in order. *)
Inductive Widget : Type :=
| selectbox (label : string) (options : list string)   (* st.sidebar.selectbox *)
| title (text : string)                                 (* st.title *)
| plotly_chart (fig : Figure)                           (* st.plotly_chart *)
| markdown (text : string)                              (* st.markdown *)
| error (text : string)                                 (* st.error *)
| columns (cols : list (list Widget))                   (* st.columns, one list per column *)
| metric (label value delta : string)                   (* st.metric *)
| button (label key : string).                          (* st.button *)

(** ** [app.py] *)

Module app.

Import pd.
Local Open Scope string_scope.
Local Open Scope float_scope.

(** Threshold limits (lines 9 to 11).  [TEMP_LIMIT] is the integer [80] in
    the source; it is only the height of a line on a chart. *)
Definition TEMP_LIMIT : float := 80.
Definition VIB_ISO_LIMIT : float := 7.1.
Definition VIB_ML_LIMIT : float := 5.0.

(** One month of hourly data (line 16). *)
Definition dates : list Timestamp :=
  date_range {| year := 2023; month := 1; day := 1 |}
             {| year := 2023; month := 1; day := 31 |}.

(** What NumPy guarantees of the arrays of a run (see [np.is_number] and
    [np.within]), over the sizes [generate_fake_data] asks for. *)
Definition numpy_contract (rs : np.RandomSource) : bool :=
  let n := List.length dates in
  forallb (fun i => np.is_number (np.normal_temperature rs i)) (seq 0 n)
  && forallb (fun i => np.is_number (np.normal_vib_iso rs i)) (seq 0 n)
  && forallb (fun i => np.is_number (np.normal_vib_ml rs i)) (seq 0 n)
  && forallb (fun i => np.within 0.2 0.8 (np.uniform_vib_ml rs i)) (seq 0 10).

Section Script.

(** [np.sin], the sine of the C library. *)
Variable np_sin : float -> float.

(** Lines 14 to 41. *)
Definition generate_fake_data (rs : np.RandomSource) : result DataFrame :=
  let n := List.length dates in
  (* Temperature: normal distribution with slight daily cycle *)
  let temp_base :=
    map (fun i => 45 + 5 * np_sin (float_of_int (i * 2) * np.pi / 24)) (np.arange n) in
  temperature <- np.add temp_base (np.random_normal (np.normal_temperature rs) 0 2 n) ;;
  (* Vibration (ISO): stable with small variations *)
  let vib_iso_base := np.scalar_mul 4.5 (np.ones n) in
  vib_iso <- np.add vib_iso_base (np.random_normal (np.normal_vib_iso rs) 0 0.3 n) ;;
  let vib_iso := np.clip vib_iso 3.5 6.5 in
  (* Vibration (ML): normal until the last 10 points *)
  let vib_ml_base := np.scalar_mul 3.8 (np.ones n) in
  vib_ml <- np.add vib_ml_base (np.random_normal (np.normal_vib_ml rs) 0 0.25 n) ;;
  vib_ml <- np.set_slice_from (-10) vib_ml
              (np.scalar_add VIB_ML_LIMIT
                 (np.random_uniform (np.uniform_vib_ml rs) 0.2 0.8 10)) ;;
  vib_ml <- np.set_slice_to (-10) vib_ml
              (np.clip (py.slice_to (-10) vib_ml) 3.0 4.8) ;;
  new_DataFrame dates temperature vib_iso vib_ml.

(** [pages] (line 44); [selected_page] is the choice of the user. *)
Definition pages : list string := ["Motor 1"; "Conveyor 1"; "Motor 2"].

(** [df['Vibration ML (mm/s)'] > VIB_ML_LIMIT] (line 80). *)
Definition above_threshold (vib_ml : array) : list bool :=
  map (fun x => VIB_ML_LIMIT <? x) vib_ml.

(** [.iloc[-10:]] *)
Definition recent {A : Type} (column : list A) : list A := py.slice_from (-10) column.

(** The text of the alarm (line 105). *)
Definition alarm_message : string :=
  "⚠️ ALARM: ML Vibration levels exceeding threshold! ⚠️".

(** The alarm indicator (lines 103 to 119). *)
Definition alarm_indicator (df : DataFrame) : result (list Widget) :=
  flags <- get_Above_Threshold df ;;
  if py.any (recent flags) then
    current <- py.item (-1) (Vibration_ML df) ;;
    current' <- py.item (-1) (Vibration_ML df) ;;
    flags' <- get_Above_Threshold df ;;
    Ok [ error alarm_message;
         columns
           [ [ metric "Current Vibration"
                      (py.format_2f current ++ " mm/s")
                      (py.format_2f (current' - VIB_ML_LIMIT) ++ " mm/s above limit") ];
             [ metric "Time in Alarm"
                      (py.str (py.sum (recent flags')) ++ " hours")
                      "Critical condition" ] ] ]
  else Ok [].

(** Lines 51 to 122.  [df] is the frame of the module: the function adds a
    column to it, so the frame it leaves is returned with the page. *)
Definition create_page_layout (selected_page : string) (df : DataFrame)
  : result (DataFrame * list Widget) :=
  (* Temperature graph *)
  let fig1 := px.line (Date df) (Temperature df) "Temperature Monitoring" in
  let fig1 := add_hline TEMP_LIMIT "Temperature Limit (80°C)" fig1 in
  let fig1 := update_layout 400 fig1 in
  (* Vibration ISO graph *)
  let fig2 := px.line (Date df) (Vibration_ISO df) "Vibration Monitoring (ISO 20816)" in
  let fig2 := add_hline VIB_ISO_LIMIT "ISO Limit (7.1 mm/s)" fig2 in
  let fig2 := update_layout 400 fig2 in
  (* Vibration ML graph with alarm condition *)
  let fig3 :=
    px.line (Date df) (Vibration_ML df) "Vibration Monitoring (Machine Learning)" in
  let df := set_Above_Threshold (above_threshold (Vibration_ML df)) df in
  above <- get_Above_Threshold df ;;
  let mask_normal := map negb above in
  let fig3 :=
    add_scatter {| sc_x := where_ mask_normal (Date df);
                   sc_y := where_ mask_normal (Vibration_ML df);
                   sc_color := "blue"; sc_width := None |} fig3 in
  mask_alarm <- get_Above_Threshold df ;;
  let fig3 :=
    add_scatter {| sc_x := where_ mask_alarm (Date df);
                   sc_y := where_ mask_alarm (Vibration_ML df);
                   sc_color := "red"; sc_width := Some 3%Z |} fig3 in
  let fig3 := add_hline VIB_ML_LIMIT "ML Threshold (5.0 mm/s)" fig3 in
  let fig3 := update_layout 400 fig3 in
  alarm <- alarm_indicator df ;;
  Ok (df,
      ([ plotly_chart fig1; markdown "---"; plotly_chart fig2; markdown "---";
         plotly_chart fig3 ]
       ++ alarm
       ++ [ button ("Analyze " ++ selected_page) ("btn_" ++ selected_page) ])%list).

(** The script, top to bottom: the page is chosen, the data generated, the
    page laid out (lines 44 to 48 and 124 to 126). *)
Definition script (rs : np.RandomSource) (selected_page : string)
  : result (DataFrame * list Widget) :=
  df <- generate_fake_data rs ;;
  page <- create_page_layout selected_page df ;;
  Ok (fst page, selectbox "Select Page" pages :: title selected_page :: snd page).

End Script.

(** *** Two views the statements below are written with *)

(** The frame [create_page_layout] leaves: the frame it is given, with the
    column of line 80. *)
Definition evaluated (df : DataFrame) : DataFrame :=
  set_Above_Threshold (above_threshold (Vibration_ML df)) df.

(** The alarm of lines 105 to 119, for the last reading [current] and
    [hours] flagged samples in the window. *)
Definition alarm_page (current : float) (hours : nat) : list Widget :=
  [ error alarm_message;
    columns
      [ [ metric "Current Vibration"
                 (py.format_2f current ++ " mm/s")
                 (py.format_2f (current - VIB_ML_LIMIT) ++ " mm/s above limit") ];
        [ metric "Time in Alarm" (py.str hours ++ " hours") "Critical condition" ] ] ].

End app.

(** ** Inputs of the worked cases *)

Module examples.

Import pd app.
Local Open Scope float_scope.

(** A random source within the contract of NumPy: deviates that cycle
    through a few values on both sides of zero, and ten uniform draws from
    the low end of [0.2, 0.8] to its high end. *)
Definition rs_example : np.RandomSource :=
  {| np.normal_temperature := fun i => float_of_int (Z.of_nat (i mod 7)) - 3;
     np.normal_vib_iso := fun i => (float_of_int (Z.of_nat (i mod 11)) - 5) * 0.5;
     np.normal_vib_ml := fun i => (float_of_int (Z.of_nat (i mod 13)) - 6) * 0.3;
     np.uniform_vib_ml :=
       fun i => if Nat.eqb i 9 then 0.8 else 0.2 + 0.06 * float_of_int (Z.of_nat i) |}.

(** A stand-in for [np.sin]: the first terms of its series. *)
Definition sin_example (x : float) : float := x - x * x * x / 6.

(** A frame of three samples. *)
Definition short_frame : DataFrame :=
  {| Date := [464592; 464593; 464594]%Z;
     Temperature := [44.2; 45.1; 46.3];
     Vibration_ISO := [4.4; 4.6; 4.5];
     Vibration_ML := [3.9; 5.0; 5.25];
     Above_Threshold := None |}.

(** The ten injected values of the scenario of section 8. *)
Definition scenario_tail : array :=
  [5.1; 5.3; 4.9; 5.5; 5.0; 5.2; 4.95; 5.6; 5.05; 5.4].

End examples.

(** ** Further inputs of worked cases *)

Module more_examples.

Import pd app.
Local Open Scope float_scope.

(** Twelve samples: two breaches older than the last ten samples, then
    readings at or below the limit and two missing ones. *)
Definition quiet_frame : DataFrame :=
  {| Date := map (fun k => (464592 + Z.of_nat k)%Z) (seq 0 12);
     Temperature := repeat 45 12;
     Vibration_ISO := repeat 4.5 12;
     Vibration_ML := [9.0; 6.5; 4.1; nan; 3.9; 5.0; 4.8; nan; 3.7; 4.2; 4.95; 4.0];
     Above_Threshold := None |}.

(** Two frames with the same last ten readings: one of twelve samples that
    starts with two breaches, one of ten. *)
Definition long_frame : DataFrame :=
  {| Date := map (fun k => (464592 + Z.of_nat k)%Z) (seq 0 12);
     Temperature := repeat 45 12;
     Vibration_ISO := repeat 4.5 12;
     Vibration_ML := [9.0; 6.5; 4.1; 5.3; 3.9; 5.0; 4.8; 5.6; 3.7; 4.2; 4.95; 5.1];
     Above_Threshold := None |}.

Definition ten_frame : DataFrame :=
  {| Date := map (fun k => (464700 + Z.of_nat k)%Z) (seq 0 10);
     Temperature := repeat 52 10;
     Vibration_ISO := repeat 4.0 10;
     Vibration_ML := [4.1; 5.3; 3.9; 5.0; 4.8; 5.6; 3.7; 4.2; 4.95; 5.1];
     Above_Threshold := Some [true] |}.

(** A second random source: it agrees with [examples.rs_example] on the
    uniform draws and on the first 711 deviates of Vibration-B, and on
    nothing else. *)
Definition rs_other : np.RandomSource :=
  {| np.normal_temperature := fun i => 1.5 - float_of_int (Z.of_nat (i mod 5));
     np.normal_vib_iso := fun i => float_of_int (Z.of_nat (i mod 3)) * 0.25;
     np.normal_vib_ml :=
       fun i => if Nat.ltb i 711 then np.normal_vib_ml examples.rs_example i else 7.5;
     np.uniform_vib_ml := np.uniform_vib_ml examples.rs_example |}.

(** A third one: the temperature and Vibration-A deviates of
    [examples.rs_example], other draws for Vibration-B. *)
Definition rs_third : np.RandomSource :=
  {| np.normal_temperature := np.normal_temperature examples.rs_example;
     np.normal_vib_iso := np.normal_vib_iso examples.rs_example;
     np.normal_vib_ml := fun i => float_of_int (Z.of_nat (i mod 4)) * 0.125;
     np.uniform_vib_ml := fun i => 0.8 - 0.05 * float_of_int (Z.of_nat i) |}.

(** Another stand-in for [np.sin]. *)
Definition sin_other (x : float) : float := x / (1 + x * x).


(** A reading that is at or below the limit, or missing (NaN). *)
Definition quiet (x : float) : bool := is_nan x || (x <=? VIB_ML_LIMIT).

End more_examples.
(** ** Binary64 facts used by the development *)

Module F64.

Open Scope Z_scope.

(** *** Comparisons *)

Lemma SFcompare_swap (x y : spec_float) :
  SFcompare y x = option_map CompOpp (SFcompare x y).
Proof.
  destruct x as [sx|sx| |sx mx ex], y as [sy|sy| |sy my ey]; simpl;
    try reflexivity; try (destruct sx; reflexivity); try (destruct sy; reflexivity);
    try (destruct sx, sy; reflexivity).
  destruct sx, sy; simpl; try reflexivity;
    rewrite (Z.compare_antisym ex ey); destruct (ex ?= ey); simpl; try reflexivity;
    rewrite ?(Pos.compare_cont_antisym mx my Eq); simpl;
    rewrite ?CompOpp_involutive; reflexivity.
Qed.

Lemma SFcompare_refl (x : spec_float) :
  SFcompare x x = match x with S754_nan => None | _ => Some Eq end.
Proof.
  destruct x as [s|s| |s m e]; simpl; try reflexivity; try (destruct s; reflexivity).
  destruct s; rewrite Z.compare_refl, Pos.compare_cont_refl; reflexivity.
Qed.

Lemma SFcompare_None (x y : spec_float) :
  SFcompare x y = None -> x = S754_nan \/ y = S754_nan.
Proof.
  destruct x as [sx|sx| |sx mx ex], y as [sy|sy| |sy my ey]; simpl; intros H;
    try discriminate H; auto.
Qed.

Lemma is_nan_spec (x : float) :
  is_nan x = match Prim2SF x with S754_nan => true | _ => false end.
Proof.
  unfold is_nan. rewrite FloatAxioms.eqb_spec. unfold SFeqb. rewrite SFcompare_refl.
  destruct (Prim2SF x); reflexivity.
Qed.

Lemma ltb_leb (x y : float) : (x <? y)%float = true -> (x <=? y)%float = true.
Proof.
  rewrite FloatAxioms.ltb_spec, FloatAxioms.leb_spec. unfold SFltb, SFleb.
  destruct (SFcompare (Prim2SF x) (Prim2SF y)) as [[| |]|]; easy.
Qed.

Lemma leb_not_ltb (x y : float) : (x <=? y)%float = true -> (y <? x)%float = false.
Proof.
  rewrite FloatAxioms.ltb_spec, FloatAxioms.leb_spec. unfold SFltb, SFleb.
  rewrite (SFcompare_swap (Prim2SF x) (Prim2SF y)).
  destruct (SFcompare (Prim2SF x) (Prim2SF y)) as [[| |]|]; easy.
Qed.

Lemma eqb_not_ltb (x y : float) : (x =? y)%float = true -> (y <? x)%float = false.
Proof.
  rewrite FloatAxioms.ltb_spec, FloatAxioms.eqb_spec. unfold SFltb, SFeqb.
  rewrite (SFcompare_swap (Prim2SF x) (Prim2SF y)).
  destruct (SFcompare (Prim2SF x) (Prim2SF y)) as [[| |]|]; easy.
Qed.

Lemma leb_not_nan (x y : float) :
  (x <=? y)%float = true -> is_nan x = false /\ is_nan y = false.
Proof.
  rewrite !is_nan_spec, FloatAxioms.leb_spec. unfold SFleb.
  destruct (Prim2SF x), (Prim2SF y); simpl; try easy.
Qed.

Lemma leb_refl (x : float) : is_nan x = false -> (x <=? x)%float = true.
Proof.
  rewrite is_nan_spec, FloatAxioms.leb_spec. unfold SFleb. rewrite SFcompare_refl.
  destruct (Prim2SF x); easy.
Qed.


(** *** Rounding to nearest, ties to even, on integers *)

(** [rne k M] is [M / 2^k] rounded to the nearest integer, ties to even. *)
Definition rne (k M : Z) : Z :=
  let q := M / 2 ^ k in
  match 2 * (M mod 2 ^ k) ?= 2 ^ k with
  | Lt => q
  | Eq => if Z.even q then q else q + 1
  | Gt => q + 1
  end.

Lemma rne_mono (k a b : Z) : 0 <= k -> a <= b -> rne k a <= rne k b.
Proof.
  intros Hk Hab. unfold rne.
  assert (HP : 0 < 2 ^ k) by (apply Z.pow_pos_nonneg; lia).
  pose proof (Z.div_mod a (2 ^ k) ltac:(lia)) as Ha.
  pose proof (Z.div_mod b (2 ^ k) ltac:(lia)) as Hb.
  pose proof (Z.mod_pos_bound a (2 ^ k) HP) as Ra.
  pose proof (Z.mod_pos_bound b (2 ^ k) HP) as Rb.
  set (qa := a / 2 ^ k) in *. set (qb := b / 2 ^ k) in *.
  set (ra := a mod 2 ^ k) in *. set (rb := b mod 2 ^ k) in *.
  set (P := 2 ^ k) in *.
  assert (Hq : qa < qb \/ (qa = qb /\ ra <= rb)) by nia.
  destruct Hq as [Hq|[Hq Hr]].
  - destruct (Z.compare_spec (2 * ra) P), (Z.compare_spec (2 * rb) P);
      repeat match goal with |- context [Z.even ?q] => destruct (Z.even q) end; lia.
  - rewrite Hq.
    destruct (Z.compare_spec (2 * ra) P), (Z.compare_spec (2 * rb) P);
      repeat match goal with |- context [Z.even ?q] => destruct (Z.even q) end; lia.
Qed.

Lemma rne_bounds (k M : Z) : 0 <= k -> M / 2 ^ k <= rne k M <= M / 2 ^ k + 1.
Proof.
  intros Hk. unfold rne.
  destruct (2 * (M mod 2 ^ k) ?= 2 ^ k); try destruct (Z.even _); lia.
Qed.

(** *** The right shift of [SpecFloat], with its round and sticky bits *)

Lemma iter_pos_nat {A : Type} (f : A -> A) (p : positive) (x : A) :
  iter_pos f p x = Nat.iter (Pos.to_nat p) f x.
Proof.
  revert x. induction p as [p IH|p IH|]; intros x; cbn [iter_pos].
  - rewrite !IH, Pos2Nat.inj_xI.
    replace (S (2 * Pos.to_nat p))%nat with (Pos.to_nat p + (Pos.to_nat p + 1))%nat by lia.
    rewrite !Nat.iter_add. reflexivity.
  - rewrite !IH, Pos2Nat.inj_xO.
    replace (2 * Pos.to_nat p)%nat with (Pos.to_nat p + Pos.to_nat p)%nat by lia.
    rewrite Nat.iter_add. reflexivity.
  - reflexivity.
Qed.

Lemma shr_1_spec (m : Z) (r s : bool) : 0 <= m ->
  shr_1 {| shr_m := m; shr_r := r; shr_s := s |} =
  {| shr_m := m / 2; shr_r := Z.odd m; shr_s := r || s |}.
Proof.
  intros Hm. rewrite <- Z.div2_div.
  destruct m as [|[p|p|]|p]; try reflexivity. lia.
Qed.

Lemma iter_shr_1 (n : nat) (M : Z) : 0 <= M ->
  Nat.iter (S n) shr_1 {| shr_m := M; shr_r := false; shr_s := false |} =
  {| shr_m := M / 2 ^ Z.of_nat (S n);
     shr_r := Z.odd (M / 2 ^ Z.of_nat n);
     shr_s := negb (M mod 2 ^ Z.of_nat n =? 0) |}.
Proof.
  intros HM. induction n as [|n IH].
  - unfold Nat.iter; cbn [nat_rect]. rewrite shr_1_spec by assumption.
    change (2 ^ Z.of_nat 1) with 2. change (2 ^ Z.of_nat 0) with 1.
    rewrite Z.div_1_r, Z.mod_1_r. reflexivity.
  - rewrite Nat.iter_succ, IH.
    assert (HP : 0 < 2 ^ Z.of_nat n) by (apply Z.pow_pos_nonneg; lia).
    assert (E1 : 2 ^ Z.of_nat (S n) = 2 ^ Z.of_nat n * 2)
      by (rewrite Nat2Z.inj_succ, Z.pow_succ_r; lia).
    assert (E2 : 2 ^ Z.of_nat (S (S n)) = 2 ^ Z.of_nat (S n) * 2)
      by (rewrite (Nat2Z.inj_succ (S n)), Z.pow_succ_r; lia).
    rewrite shr_1_spec by (apply Z.div_pos; lia).
    rewrite E2, <- Z.div_div by lia. f_equal.
    rewrite E1, Z.rem_mul_r by lia.
    rewrite Zmod_odd.
    pose proof (Z.mod_pos_bound M (2 ^ Z.of_nat n) HP).
    destruct (Z.odd (M / 2 ^ Z.of_nat n)); simpl.
    + symmetry. apply negb_true_iff, Z.eqb_neq. lia.
    + f_equal. f_equal. lia.
Qed.

Lemma round_shr (n : nat) (M : Z) : 0 <= M ->
  let x := Nat.iter (S n) shr_1 {| shr_m := M; shr_r := false; shr_s := false |} in
  round_nearest_even (shr_m x) (loc_of_shr_record x) = rne (Z.of_nat (S n)) M.
Proof.
  intros HM x. subst x. rewrite iter_shr_1 by assumption. unfold rne.
  assert (HP : 0 < 2 ^ Z.of_nat n) by (apply Z.pow_pos_nonneg; lia).
  assert (E1 : 2 ^ Z.of_nat (S n) = 2 ^ Z.of_nat n * 2)
    by (rewrite Nat2Z.inj_succ, Z.pow_succ_r; lia).
  assert (E2 : M mod 2 ^ Z.of_nat (S n) =
               M mod 2 ^ Z.of_nat n
               + 2 ^ Z.of_nat n * (if Z.odd (M / 2 ^ Z.of_nat n) then 1 else 0))
    by (rewrite E1, Z.rem_mul_r, Zmod_odd by lia; reflexivity).
  pose proof (Z.mod_pos_bound M (2 ^ Z.of_nat n) HP) as HR.
  cbn [shr_m loc_of_shr_record].
  destruct (Z.odd (M / 2 ^ Z.of_nat n));
    destruct (Z.eqb_spec (M mod 2 ^ Z.of_nat n) 0) as [E|E];
    destruct (Z.compare_spec (2 * (M mod 2 ^ Z.of_nat (S n))) (2 ^ Z.of_nat (S n)));
    cbn [negb round_nearest_even]; try reflexivity; lia.
Qed.


(** *** Number of binary digits *)

Lemma digits2_size (p : positive) : digits2_pos p = Pos.size p.
Proof. induction p; simpl; congruence. Qed.

Lemma digits2_bounds (p : positive) :
  2 ^ (Z.pos (digits2_pos p) - 1) <= Z.pos p < 2 ^ Z.pos (digits2_pos p).
Proof.
  rewrite digits2_size.
  pose proof (Pos.size_gt p) as Hgt. pose proof (Pos.size_le p) as Hle.
  apply Pos2Z.pos_lt_pos in Hgt. apply Pos2Z.pos_le_pos in Hle.
  rewrite Pos2Z.inj_pow in Hgt, Hle. rewrite (Pos2Z.inj_xO p) in Hle.
  replace (Z.pos (Pos.size p)) with (Z.succ (Z.pos (Pos.size p) - 1)) in Hle at 1 by lia.
  rewrite Z.pow_succ_r in Hle by lia. lia.
Qed.

Lemma digits2_unique (p : positive) (d : Z) :
  2 ^ (d - 1) <= Z.pos p < 2 ^ d -> Z.pos (digits2_pos p) = d.
Proof.
  intros [Hlo Hhi]. pose proof (digits2_bounds p) as [Blo Bhi].
  assert (Hd : 0 < d).
  { destruct (Z.ltb_spec 0 d) as [|Hn]; [assumption|].
    destruct (Z.eqb_spec d 0) as [->|]; [simpl in Hhi; lia|].
    rewrite (Z.pow_neg_r 2 d) in Hhi by lia. lia. }
  destruct (Z.lt_trichotomy (Z.pos (digits2_pos p)) d) as [H|[H|H]]; [|assumption|].
  - assert (2 ^ Z.pos (digits2_pos p) <= 2 ^ (d - 1)) by (apply Z.pow_le_mono_r; lia). lia.
  - assert (2 ^ d <= 2 ^ (Z.pos (digits2_pos p) - 1)) by (apply Z.pow_le_mono_r; lia). lia.
Qed.

(** *** Rounding a positive mantissa to the 53 bits of binary64 *)

Lemma binary_round_aux_shift (M : positive) (e k : Z) :
  0 < k ->
  Z.pos (digits2_pos M) = 53 + k ->
  -1074 <= e + k <= 971 ->
  rne k (Z.pos M) < 2 ^ 53 ->
  binary_round_aux prec emax false (Z.pos M) e loc_Exact =
  S754_finite false (Z.to_pos (rne k (Z.pos M))) (e + k).
Proof.
  intros Hk Hd He Hr.
  assert (Hlo : 2 ^ 52 <= rne k (Z.pos M)).
  { pose proof (rne_bounds k (Z.pos M) ltac:(lia)) as [B _].
    pose proof (digits2_bounds M) as [D _]. rewrite Hd in D.
    replace (53 + k - 1) with (52 + k) in D by lia.
    rewrite Z.pow_add_r in D by lia.
    assert (2 ^ 52 <= Z.pos M / 2 ^ k); [|lia].
    apply Z.div_le_lower_bound; [apply Z.pow_pos_nonneg; lia|lia]. }
  unfold binary_round_aux, shr_fexp.
  cbn [Zdigits2 shr_record_of_loc]. rewrite Hd.
  unfold fexp, SpecFloat.emin, prec, emax.
  rewrite (Z.max_l (53 + k + e - 53)) by lia.
  replace (53 + k + e - 53 - e) with k by lia.
  destruct k as [|p|p]; try lia. cbn [shr].
  rewrite iter_pos_nat.
  destruct (Pos.to_nat p) as [|n] eqn:En; [lia|].
  pose proof (round_shr n (Z.pos M) ltac:(lia)) as R. cbv zeta in R. rewrite R.
  replace (Z.of_nat (S n)) with (Z.pos p) by lia.
  set (M' := rne (Z.pos p) (Z.pos M)) in *.
  destruct M' as [|m'|m'] eqn:EM; try lia.
  cbn [Zdigits2].
  rewrite (digits2_unique m' 53) by (change (2 ^ (53 - 1)) with (2 ^ 52); lia).
  rewrite (Z.max_l (53 + (e + Z.pos p) - 53)) by lia.
  replace (53 + (e + Z.pos p) - 53 - (e + Z.pos p)) with 0 by lia.
  cbn [shr shr_m]. 
  destruct (Z.leb_spec (e + Z.pos p) (1024 - 53)); [reflexivity|lia].
Qed.


(** *** Addition of two positive finite numbers *)

Lemma iter_xO_spec (m d : positive) : Z.pos (Pos.iter xO m d) = Z.pos m * 2 ^ Z.pos d.
Proof.
  change (Pos.iter xO m d) with (shift_pos d m). rewrite shift_pos_correct.
  change (Z.pow_pos 2 d) with (2 ^ Z.pos d). lia.
Qed.

(** The sum of [ma * 2^ea] and [mb * 2^eb], when it has [k] bits too many
    and rounding does not carry into the next binade. *)
Lemma SF64add_pos_shift (ma mb : positive) (ea eb k : Z) :
  eb < ea -> 0 < k ->
  let M := Z.pos ma * 2 ^ (ea - eb) + Z.pos mb in
  2 ^ (52 + k) <= M < 2 ^ (53 + k) ->
  -1074 <= eb + k <= 971 ->
  rne k M < 2 ^ 53 ->
  SF64add (S754_finite false ma ea) (S754_finite false mb eb) =
  S754_finite false (Z.to_pos (rne k M)) (eb + k).
Proof.
  intros He Hk M HM Hr Hc. unfold SF64add, SFadd.
  rewrite (Z.min_r ea eb) by lia. unfold shl_align.
  rewrite Z.sub_diag.
  destruct (eb - ea) as [|p|p] eqn:Ep; try lia.
  cbn [fst cond_Zopp]. 
  assert (EM : Z.pos (Pos.iter xO ma p) + Z.pos mb = M).
  { subst M. rewrite iter_xO_spec. replace (ea - eb) with (Z.pos p) by lia. reflexivity. }
  change (Z.pos (Pos.iter xO ma p) + Z.pos mb)
    with (Z.pos (Pos.iter xO ma p + mb)) in *.
  set (pm := (Pos.iter xO ma p + mb)%positive) in *.
  cbn [binary_normalize]. unfold binary_round.
  assert (Hd : Z.pos (digits2_pos pm) = 53 + k).
  { apply digits2_unique. rewrite EM. replace (53 + k - 1) with (52 + k) by lia. exact HM. }
  assert (Hf : fexp prec emax (Z.pos (digits2_pos pm) + eb) = eb + k)
    by (rewrite Hd; unfold fexp, SpecFloat.emin, prec, emax; lia).
  rewrite Hf. unfold shl_align.
  replace (eb + k - eb) with k by lia.
  destruct k as [|q|q] eqn:Ek; try lia.
  rewrite <- Ek in *.
  rewrite (binary_round_aux_shift pm eb k) by (rewrite ?EM; lia).
  rewrite EM. reflexivity.
Qed.


(** *** Normal numbers *)

Lemma finite_normal (f : float) (s : bool) (m : positive) (e : Z) :
  Prim2SF f = S754_finite s m e -> -1074 < e ->
  2 ^ 52 <= Z.pos m < 2 ^ 53 /\ e <= 971.
Proof.
  intros E He. pose proof (Prim2SF_valid f) as V. rewrite E in V.
  cbn [SpecFloat.valid_binary] in V. unfold bounded, canonical_mantissa in V.
  apply andb_true_iff in V. destruct V as [C B].
  apply Z.eqb_eq in C. apply Z.leb_le in B.
  unfold fexp, SpecFloat.emin, prec, emax in C, B.
  assert (D : Z.pos (digits2_pos m) = 53) by lia.
  pose proof (digits2_bounds m) as Bd. rewrite D in Bd.
  change (2 ^ (53 - 1)) with (2 ^ 52) in Bd. lia.
Qed.

Lemma SFleb_finite_pos (ma mb : positive) (ea eb : Z) :
  SFleb (S754_finite false ma ea) (S754_finite false mb eb) = true <->
  ea < eb \/ (ea = eb /\ Z.pos ma <= Z.pos mb).
Proof.
  unfold SFleb, SFcompare.
  change (Pos.compare_cont Eq ma mb) with (Pos.compare ma mb).
  destruct (Z.compare_spec ea eb); [destruct (Pos.compare_spec ma mb)| |];
    split; intros; try discriminate; try reflexivity; lia.
Qed.

Lemma SFltb_finite_pos (ma mb : positive) (ea eb : Z) :
  SFltb (S754_finite false ma ea) (S754_finite false mb eb) = true <->
  ea < eb \/ (ea = eb /\ Z.pos ma < Z.pos mb).
Proof.
  unfold SFltb, SFcompare.
  change (Pos.compare_cont Eq ma mb) with (Pos.compare ma mb).
  destruct (Z.compare_spec ea eb); [destruct (Pos.compare_spec ma mb)| |];
    split; intros; try discriminate; try reflexivity; lia.
Qed.

(** The binade and mantissa of a number between [lo] and [hi], both
    positive and finite. *)
Lemma between_finite_pos (lo hi d : float) (ml mh : positive) (el eh : Z) :
  Prim2SF lo = S754_finite false ml el ->
  Prim2SF hi = S754_finite false mh eh ->
  (lo <=? d)%float = true -> (d <=? hi)%float = true ->
  exists (m : positive) (e : Z),
    Prim2SF d = S754_finite false m e /\
    (el < e \/ (el = e /\ Z.pos ml <= Z.pos m)) /\
    (e < eh \/ (e = eh /\ Z.pos m <= Z.pos mh)).
Proof.
  intros El Eh. rewrite !FloatAxioms.leb_spec, El, Eh.
  destruct (Prim2SF d) as [s|s| |s m e]; try (destruct s; discriminate); try discriminate.
  destruct s; try discriminate.
  intros H1 H2. exists m, e. split; [reflexivity|].
  split; apply SFleb_finite_pos; assumption.
Qed.


(** *** The sum [5.0 + d] for [0.2 <= d <= 0.8] *)

Lemma Prim2SF_5 : Prim2SF 5.0 = S754_finite false 5629499534213120 (-50).
Proof. reflexivity. Qed.

Lemma Prim2SF_0_2 : Prim2SF 0.2 = S754_finite false 7205759403792794 (-55).
Proof. reflexivity. Qed.

Lemma Prim2SF_0_8 : Prim2SF 0.8 = S754_finite false 7205759403792794 (-53).
Proof. reflexivity. Qed.

Lemma Prim2SF_5_2 : Prim2SF (5.0 + 0.2) = S754_finite false 5854679515581645 (-50).
Proof. reflexivity. Qed.

Lemma Prim2SF_5_8 : Prim2SF (5.0 + 0.8) = S754_finite false 6530219459687219 (-50).
Proof. reflexivity. Qed.

Ltac closed_cmp := first [apply Z.leb_le | apply Z.ltb_lt]; vm_compute; reflexivity.

(** One binade of [d]: [k] is the number of bits the aligned sum loses. *)
Lemma add_5_binade (m : positive) (e k lo hi : Z) :
  e = -50 - k -> 2 <= k <= 5 ->
  2 ^ 52 <= lo -> lo <= Z.pos m <= hi -> hi < 2 ^ 53 ->
  5854679515581645 <= rne k (5629499534213120 * 2 ^ k + lo) ->
  rne k (5629499534213120 * 2 ^ k + hi) <= 6530219459687219 ->
  exists r : positive,
    SF64add (S754_finite false 5629499534213120 (-50)) (S754_finite false m e) =
    S754_finite false r (-50) /\
    5854679515581645 <= Z.pos r <= 6530219459687219.
Proof.
  intros -> Hk Hlo Hm Hhi Rlo Rhi.
  set (M := 5629499534213120 * 2 ^ k + Z.pos m).
  assert (R : 5854679515581645 <= rne k M <= 6530219459687219).
  { split.
    - etransitivity; [exact Rlo|]. apply rne_mono; unfold M; lia.
    - etransitivity; [|exact Rhi]. apply rne_mono; unfold M; lia. }
  assert (P52 : 2 ^ 52 = 4503599627370496) by reflexivity.
  assert (P53 : 2 ^ 53 = 9007199254740992) by reflexivity.
  assert (Pk : 2 ^ (52 + k) = 4503599627370496 * 2 ^ k)
    by (rewrite Z.pow_add_r by lia; reflexivity).
  assert (Pk' : 2 ^ (53 + k) = 9007199254740992 * 2 ^ k)
    by (rewrite Z.pow_add_r by lia; reflexivity).
  assert (K : 4 <= 2 ^ k) by (change 4 with (2 ^ 2); apply Z.pow_le_mono_r; lia).
  exists (Z.to_pos (rne k M)). split.
  - pose proof (SF64add_pos_shift 5629499534213120 m (-50) (-50 - k) k) as A.
    cbv zeta in A.
    replace (-50 - (-50 - k)) with k in A by lia.
    replace (-50 - k + k) with (-50) in A by lia.
    apply A; fold M; unfold M in *; nia.
  - rewrite Z2Pos.id by lia. exact R.
Qed.

Lemma add_5_between (d : float) :
  (0.2 <=? d)%float = true -> (d <=? 0.8)%float = true ->
  exists r : positive,
    Prim2SF (5.0 + d) = S754_finite false r (-50) /\
    5854679515581645 <= Z.pos r <= 6530219459687219.
Proof.
  intros H1 H2.
  destruct (between_finite_pos 0.2 0.8 d _ _ _ _ Prim2SF_0_2 Prim2SF_0_8 H1 H2)
    as (m & e & E & Hlo & Hhi).
  destruct (finite_normal d false m e E ltac:(lia)) as [Hm _].
  rewrite FloatAxioms.add_spec, E, Prim2SF_5.
  change (2 ^ 52) with 4503599627370496 in Hm.
  change (2 ^ 53) with 9007199254740992 in Hm.
  assert (C : e = -55 \/ e = -54 \/ e = -53) by lia.
  destruct C as [->|[->| ->]].
  - apply (add_5_binade m (-55) 5 7205759403792794 9007199254740991);
      try lia; closed_cmp.
  - apply (add_5_binade m (-54) 4 4503599627370496 9007199254740991);
      try lia; closed_cmp.
  - apply (add_5_binade m (-53) 3 4503599627370496 7205759403792794);
      try lia; closed_cmp.
Qed.


(** *** The difference [(5.0 + d) - 5.0], which is exact *)

Lemma binary_round_aux_exact (M : positive) (e : Z) :
  Z.pos (digits2_pos M) = 53 -> -1074 <= e <= 971 ->
  binary_round_aux prec emax false (Z.pos M) e loc_Exact = S754_finite false M e.
Proof.
  intros Hd He. unfold binary_round_aux, shr_fexp.
  cbn [Zdigits2 shr_record_of_loc]. rewrite Hd.
  assert (Hf : fexp prec emax (53 + e) - e = 0)
    by (unfold fexp, SpecFloat.emin, prec, emax; lia).
  rewrite Hf. cbn [shr shr_m loc_of_shr_record round_nearest_even Zdigits2 shr_record_of_loc].
  rewrite Hd, Hf. cbn [shr shr_m].
  unfold prec, emax. destruct (Z.leb_spec e (1024 - 53)); [reflexivity|lia].
Qed.

(** A mantissa with [j] bits too few is shifted left: nothing is lost. *)
Lemma binary_round_exact (D : positive) (e j : Z) :
  0 < j -> Z.pos (digits2_pos D) = 53 - j -> -1074 <= e - j <= 971 ->
  binary_round prec emax false D e =
  S754_finite false (Z.to_pos (Z.pos D * 2 ^ j)) (e - j).
Proof.
  intros Hj Hd He. unfold binary_round.
  assert (Hf : fexp prec emax (Z.pos (digits2_pos D) + e) = e - j)
    by (rewrite Hd; unfold fexp, SpecFloat.emin, prec, emax; lia).
  rewrite Hf. unfold shl_align.
  destruct (e - j - e) as [|p|p] eqn:Ep; try lia.
  assert (Ej : j = Z.pos p) by lia. subst j.
  assert (ED : Z.pos (Pos.iter xO D p) = Z.pos D * 2 ^ Z.pos p) by apply iter_xO_spec.
  rewrite <- ED. cbn [Z.to_pos].
  apply binary_round_aux_exact; [|lia].
  apply digits2_unique. rewrite ED.
  pose proof (digits2_bounds D) as B. rewrite Hd in B.
  replace (53 - 1) with (53 - Z.pos p - 1 + Z.pos p) by lia.
  replace 53 with (53 - Z.pos p + Z.pos p) at 2 by lia.
  rewrite !Z.pow_add_r by lia.
  assert (0 < 2 ^ Z.pos p) by (apply Z.pow_pos_nonneg; lia). nia.
Qed.

Lemma sub_5_between (r : positive) :
  5854679515581645 <= Z.pos r <= 6530219459687219 ->
  exists (D : positive) (e : Z),
    SF64sub (S754_finite false r (-50)) (S754_finite false 5629499534213120 (-50)) =
    S754_finite false D e /\
    (-55 < e \/ (-55 = e /\ 7205759403792794 <= Z.pos D)) /\
    (e < -53 \/ (e = -53 /\ Z.pos D <= 7205759403792794)).
Proof.
  intros Hr. unfold SF64sub, SFsub.
  rewrite Z.min_id. unfold shl_align. rewrite Z.sub_diag. cbn [fst cond_Zopp].
  destruct (Z.pos r - 5629499534213120) as [|D|D] eqn:ED; try lia.
  cbn [binary_normalize].
  assert (HD : 225179981368525 <= Z.pos D <= 900719925474099) by lia.
  pose proof (digits2_bounds D) as B.
  set (dg := Z.pos (digits2_pos D)) in *.
  assert (Hdg : 48 <= dg <= 50).
  { split.
    - destruct (Z.le_gt_cases 48 dg) as [|L]; [assumption|].
      assert (2 ^ dg <= 2 ^ 47) by (apply Z.pow_le_mono_r; lia).
      change (2 ^ 47) with 140737488355328 in *. lia.
    - destruct (Z.le_gt_cases dg 50) as [|L]; [assumption|].
      assert (2 ^ 50 <= 2 ^ (dg - 1)) by (apply Z.pow_le_mono_r; lia).
      change (2 ^ 50) with 1125899906842624 in *. lia. }
  rewrite (binary_round_exact D (-50) (53 - dg)) by (fold dg; lia).
  eexists _, _. split; [reflexivity|].
  rewrite Z2Pos.id by (apply Z.mul_pos_pos; [lia|apply Z.pow_pos_nonneg; lia]).
  assert (C : dg = 48 \/ dg = 49 \/ dg = 50) by lia.
  destruct C as [C|[C|C]]; rewrite C.
  - change (2 ^ (53 - 48)) with 32. lia.
  - change (2 ^ (53 - 49)) with 16. lia.
  - change (2 ^ (53 - 50)) with 8. lia.
Qed.

(** The injected tail of the generator: [VIB_ML_LIMIT + uniform(0.2, 0.8)]. *)
Lemma add_5_bounds (d : float) :
  (0.2 <=? d)%float = true -> (d <=? 0.8)%float = true ->
  (5.0 <? 5.0 + d)%float = true /\
  (5.0 + 0.2 <=? 5.0 + d)%float = true /\ (5.0 + d <=? 5.0 + 0.8)%float = true /\
  (0.2 <=? 5.0 + d - 5.0)%float = true /\ (5.0 + d - 5.0 <=? 0.8)%float = true.
Proof.
  intros H1 H2. destruct (add_5_between d H1 H2) as (r & E & Hr).
  destruct (sub_5_between r Hr) as (D & e & Es & Dlo & Dhi).
  rewrite FloatAxioms.ltb_spec, !FloatAxioms.leb_spec, FloatAxioms.sub_spec, E.
  rewrite Prim2SF_5, Prim2SF_5_2, Prim2SF_5_8, Prim2SF_0_2, Prim2SF_0_8, Es.
  split; [apply SFltb_finite_pos; lia|repeat split; apply SFleb_finite_pos; lia].
Qed.


(** *** Sums that are not NaN *)

Lemma shr_1_nonneg (x : shr_record) : 0 <= shr_m x -> 0 <= shr_m (shr_1 x).
Proof.
  destruct x as [m r s]. cbn [shr_m]. intros Hm.
  rewrite shr_1_spec by assumption. cbn [shr_m]. apply Z.div_pos; lia.
Qed.

Lemma shr_fexp_nonneg (m e : Z) (l : location) :
  0 <= m -> 0 <= shr_m (fst (shr_fexp prec emax m e l)).
Proof.
  intros Hm. unfold shr_fexp, shr.
  assert (H0 : 0 <= shr_m (shr_record_of_loc m l)) by (destruct l as [|[| |]]; exact Hm).
  destruct (fexp prec emax (Zdigits2 m + e) - e) as [|p|p]; cbn [fst]; try exact H0.
  rewrite iter_pos_nat.
  induction (Pos.to_nat p) as [|n IH]; [exact H0|].
  rewrite Nat.iter_succ. apply shr_1_nonneg, IH.
Qed.

Lemma round_nearest_even_nonneg (m : Z) (l : location) :
  0 <= m -> 0 <= round_nearest_even m l.
Proof.
  intros Hm. destruct l as [|[| |]]; cbn [round_nearest_even];
    try destruct (Z.even m); lia.
Qed.

Lemma binary_round_aux_not_nan (sx : bool) (m e : Z) (l : location) :
  0 <= m -> binary_round_aux prec emax sx m e l <> S754_nan.
Proof.
  intros Hm. unfold binary_round_aux.
  pose proof (shr_fexp_nonneg m e l Hm) as H1.
  destruct (shr_fexp prec emax m e l) as [mrs' e']. cbn [fst] in H1.
  pose proof (shr_fexp_nonneg
                (round_nearest_even (shr_m mrs') (loc_of_shr_record mrs')) e' loc_Exact
                (round_nearest_even_nonneg _ _ H1)) as H2.
  destruct (shr_fexp prec emax _ e' loc_Exact) as [mrs'' e'']. cbn [fst] in H2.
  destruct (shr_m mrs'') as [|p|p]; try discriminate; [|lia].
  destruct (e'' <=? emax - prec); discriminate.
Qed.

Lemma binary_normalize_not_nan (m e : Z) (sz : bool) :
  binary_normalize prec emax m e sz <> S754_nan.
Proof.
  destruct m as [|p|p]; cbn [binary_normalize]; try discriminate;
    unfold binary_round;
    destruct (shl_align p e (fexp prec emax (Z.pos (digits2_pos p) + e))) as [mz ez];
    apply binary_round_aux_not_nan; lia.
Qed.

Lemma SF64add_finite_not_nan (s : bool) (m : positive) (e : Z) (y : spec_float) :
  y <> S754_nan -> SF64add (S754_finite s m e) y <> S754_nan.
Proof.
  intros Hy. unfold SF64add, SFadd.
  destruct y as [sy|sy| |sy my ey]; try discriminate; try contradiction.
  apply binary_normalize_not_nan.
Qed.

Lemma add_finite_not_nan (a g : float) (s : bool) (m : positive) (e : Z) :
  Prim2SF a = S754_finite s m e -> is_nan g = false -> is_nan (a + g) = false.
Proof.
  rewrite !is_nan_spec, FloatAxioms.add_spec. intros -> Hg.
  pose proof (SF64add_finite_not_nan s m e (Prim2SF g)) as H.
  destruct (SF64add (S754_finite s m e) (Prim2SF g)); try reflexivity.
  exfalso. apply H; [|reflexivity]. intros E. rewrite E in Hg. discriminate.
Qed.

End F64.


(** ** Slices, indices and reductions *)

Module py_facts.

Lemma slice_bound_last10 (len : nat) : py.slice_bound len (-10) = (len - 10)%nat.
Proof. unfold py.slice_bound. cbn [Z.ltb Z.compare]. lia. Qed.

Lemma slice_from_last10 {A : Type} (l : list A) :
  py.slice_from (-10) l = skipn (List.length l - 10) l.
Proof. unfold py.slice_from. now rewrite slice_bound_last10. Qed.

Lemma slice_to_last10 {A : Type} (l : list A) :
  py.slice_to (-10) l = firstn (List.length l - 10) l.
Proof. unfold py.slice_to. now rewrite slice_bound_last10. Qed.

(** A series shorter than the window is its own trailing window. *)
Lemma slice_from_short {A : Type} (l : list A) :
  (List.length l <= 10)%nat -> py.slice_from (-10) l = l.
Proof.
  intros H. rewrite slice_from_last10.
  replace (List.length l - 10)%nat with 0%nat by lia. reflexivity.
Qed.

(** The trailing window of a series that ends with ten known samples. *)
Lemma slice_from_app10 {A : Type} (prefix tail : list A) :
  List.length tail = 10%nat -> py.slice_from (-10) (prefix ++ tail) = tail.
Proof.
  intros H. rewrite slice_from_last10, length_app, H.
  replace (List.length prefix + 10 - 10)%nat with (List.length prefix + 0)%nat by lia.
  rewrite skipn_app, Nat.add_0_r, skipn_all.
  replace (List.length prefix - List.length prefix)%nat with 0%nat by lia.
  reflexivity.
Qed.

Lemma slice_to_app10 {A : Type} (prefix tail : list A) :
  List.length tail = 10%nat -> py.slice_to (-10) (prefix ++ tail) = prefix.
Proof.
  intros H. rewrite slice_to_last10, length_app, H.
  replace (List.length prefix + 10 - 10)%nat with (List.length prefix + 0)%nat by lia.
  rewrite firstn_app_2. cbn [firstn]. apply app_nil_r.
Qed.

Lemma nth_error_slice_from {A : Type} (l : list A) (i : nat) :
  nth_error (py.slice_from (-10) l) i = nth_error l (List.length l - 10 + i).
Proof. rewrite slice_from_last10. apply nth_error_skipn. Qed.

Lemma in_slice_from {A : Type} (l : list A) (x : A) :
  In x (py.slice_from (-10) l) -> In x l.
Proof.
  rewrite slice_from_last10. intros H.
  rewrite <- (firstn_skipn (List.length l - 10) l). apply in_or_app. now right.
Qed.

(** [l[-1]] is the last element of a sequence that has one. *)
Lemma item_last {A : Type} (l : list A) (d : A) :
  l <> [] -> py.item (-1) l = Ok (last l d).
Proof.
  intros Hl. destruct (exists_last Hl) as (l' & a & ->).
  unfold py.item. rewrite length_app, last_last. cbn [List.length Z.ltb Z.compare].
  destruct (Z.ltb_spec (Z.of_nat (List.length l' + 1) + -1) 0) as [H|H]; [lia|].
  replace (Z.to_nat (Z.of_nat (List.length l' + 1) + -1)) with (List.length l') by lia.
  rewrite nth_error_app2, Nat.sub_diag by lia. reflexivity.
Qed.

Lemma any_true_iff (l : list bool) :
  py.any l = true <-> exists i, nth_error l i = Some true.
Proof.
  unfold py.any. rewrite existsb_exists. split.
  - intros (b & Hin & ->). now apply In_nth_error.
  - intros (i & Hi). exists true. split; [now apply nth_error_In with i|reflexivity].
Qed.

Lemma any_false_iff (l : list bool) :
  py.any l = false <-> Forall (fun b => b = false) l.
Proof.
  unfold py.any. induction l as [|b l IH]; cbn [existsb].
  - split; [constructor|reflexivity].
  - rewrite orb_false_iff, IH. split.
    + intros [-> H]. now constructor.
    + intros H. inversion H; subst. now split.
Qed.

Lemma sum_all_false (l : list bool) : Forall (fun b => b = false) l -> py.sum l = 0%nat.
Proof.
  unfold py.sum. induction 1 as [|b l -> _ IH]; cbn [filter List.length]; auto.
Qed.

End py_facts.

(** ** Arrays *)

Module np_facts.

Local Open Scope float_scope.

Lemma ones_seq (n : nat) : np.ones n = map (fun _ => 1.0) (seq 0 n).
Proof. unfold np.ones. now rewrite map_const, length_seq. Qed.

Lemma combine_map_seq {A B : Type} (f : nat -> A) (g : nat -> B) (l : list nat) :
  combine (map f l) (map g l) = map (fun i => (f i, g i)) l.
Proof. induction l as [|i l IH]; cbn [map combine]; congruence. Qed.

(** Two arrays computed index by index over the same range add up index by
    index: the shapes agree, nothing is raised. *)
Lemma add_map_seq (f g : nat -> float) (n : nat) :
  np.add (map f (seq 0 n)) (map g (seq 0 n)) = Ok (map (fun i => f i + g i) (seq 0 n)).
Proof.
  unfold np.add. rewrite !length_map, Nat.eqb_refl, combine_map_seq, map_map.
  reflexivity.
Qed.

Lemma firstn_seq (k start len : nat) :
  firstn k (seq start len) = seq start (Nat.min k len).
Proof.
  revert start len. induction k as [|k IH]; intros start [|len]; try reflexivity.
  cbn [firstn seq Nat.min]. now rewrite IH.
Qed.

(** [a[-10:] = b] for ten values [b] and an array of at least ten. *)
Lemma set_slice_from_last10 (f : nat -> float) (n : nat) (b : array) :
  (10 <= n)%nat -> List.length b = 10%nat ->
  np.set_slice_from (-10) (map f (seq 0 n)) b = Ok (map f (seq 0 (n - 10)) ++ b).
Proof.
  intros Hn Hb. unfold np.set_slice_from.
  rewrite length_map, length_seq, py_facts.slice_bound_last10, Hb.
  replace (n - (n - 10))%nat with 10%nat by lia. cbn [Nat.eqb].
  rewrite firstn_map, firstn_seq, Nat.min_l by lia. reflexivity.
Qed.

(** [a[:-10] = c] for [c] of the shape of [a[:-10]]. *)
Lemma set_slice_to_last10 (head c tail : array) :
  List.length tail = 10%nat -> List.length c = List.length head ->
  np.set_slice_to (-10) (head ++ tail) c = Ok (c ++ tail).
Proof.
  intros Ht Hc. unfold np.set_slice_to.
  rewrite py_facts.slice_bound_last10, length_app, Ht.
  replace (List.length head + 10 - 10)%nat with (List.length head) by lia.
  rewrite Hc, Nat.eqb_refl, skipn_app, skipn_all, Nat.sub_diag. reflexivity.
Qed.

(** [np.clip] returns a value of the interval, unless it is given a NaN. *)
Lemma clip1_within (x lo hi : float) :
  is_nan x = false -> (lo <=? hi) = true -> np.within lo hi (np.clip1 x lo hi) = true.
Proof.
  intros Hx Hlh. destruct (F64.leb_not_nan lo hi Hlh) as [Hlo Hhi].
  unfold np.within, np.clip1, np.clip_max, np.clip_min. rewrite Hx.
  destruct (lo <? x) eqn:E1.
  - rewrite Hx. destruct (x <? hi) eqn:E2.
    + now rewrite (F64.ltb_leb lo x E1), (F64.ltb_leb x hi E2).
    + now rewrite Hlh, (F64.leb_refl hi Hhi).
  - rewrite Hlo. destruct (lo <? hi) eqn:E2.
    + now rewrite (F64.leb_refl lo Hlo), Hlh.
    + now rewrite Hlh, (F64.leb_refl hi Hhi).
Qed.

End np_facts.

(** ** The generator and the page *)

Module app_facts.

Import pd app.
Local Open Scope string_scope.
Local Open Scope float_scope.

Lemma dates_length : List.length dates = 721%nat.
Proof. vm_compute. reflexivity. Qed.

(** The frame [generate_fake_data] returns, column by column and index by
    index: no call of it raises. *)
Lemma generate_fake_data_eq (np_sin : float -> float) (rs : np.RandomSource) :
  generate_fake_data np_sin rs =
  Ok {| Date := dates;
        Temperature :=
          map (fun i => 45 + 5 * np_sin (float_of_int (Z.of_nat i * 2) * np.pi / 24)
                        + np.normal_temperature rs i) (seq 0 721);
        Vibration_ISO :=
          map (fun i => np.clip1 (4.5 * 1.0 + np.normal_vib_iso rs i) 3.5 6.5)
              (seq 0 721);
        Vibration_ML :=
          (map (fun i => np.clip1 (3.8 * 1.0 + np.normal_vib_ml rs i) 3.0 4.8)
               (seq 0 711)
           ++ map (fun j => VIB_ML_LIMIT + np.uniform_vib_ml rs j) (seq 0 10))%list;
        Above_Threshold := None |}.
Proof.
  unfold generate_fake_data. cbv zeta. rewrite dates_length.
  unfold np.arange, np.scalar_mul, np.scalar_add, np.random_normal, np.random_uniform,
    np.clip.
  rewrite np_facts.ones_seq, !map_map.
  rewrite !np_facts.add_map_seq. cbn [bind].
  rewrite np_facts.set_slice_from_last10 by (rewrite ?length_map, ?length_seq; lia).
  cbn [bind]. replace (721 - 10)%nat with 711%nat by reflexivity.
  rewrite py_facts.slice_to_app10 by (now rewrite length_map, length_seq).
  rewrite np_facts.set_slice_to_last10
    by (rewrite ?length_map, ?length_seq; reflexivity).
  cbn [bind]. rewrite !map_map.
  unfold new_DataFrame. rewrite dates_length, length_app, !length_map, !length_seq.
  reflexivity.
Qed.

Lemma above_threshold_length (vib_ml : array) :
  List.length (above_threshold vib_ml) = List.length vib_ml.
Proof. apply length_map. Qed.

Lemma recent_above_threshold (vib_ml : array) :
  recent (above_threshold vib_ml) = above_threshold (recent vib_ml).
Proof.
  unfold recent, above_threshold.
  rewrite !py_facts.slice_from_last10, length_map. apply skipn_map.
Qed.

(** A flag in the window means a series that has a last reading. *)
Lemma any_recent_nonempty (vib_ml : array) :
  py.any (recent (above_threshold vib_ml)) = true -> vib_ml <> [].
Proof. intros H ->. discriminate H. Qed.

(** The alarm indicator never raises on the frame of line 80: its index
    [-1] is read only when a flag of the window is set. *)
Lemma alarm_indicator_evaluated (df : DataFrame) :
  alarm_indicator (evaluated df) =
  Ok (if py.any (recent (above_threshold (Vibration_ML df)))
      then alarm_page (last (Vibration_ML df) 0)
                      (py.sum (recent (above_threshold (Vibration_ML df))))
      else []).
Proof.
  unfold alarm_indicator, evaluated, get_Above_Threshold, set_Above_Threshold.
  cbn [Above_Threshold Vibration_ML bind].
  destruct (py.any (recent (above_threshold (Vibration_ML df)))) eqn:E; [|reflexivity].
  rewrite (py_facts.item_last (Vibration_ML df) 0) by now apply any_recent_nonempty.
  reflexivity.
Qed.

(** The page of [create_page_layout]: five charts and rules that do not
    depend on the selected page, the alarm, the button.  No frame makes it
    raise. *)
Lemma create_page_layout_eq (df : DataFrame) :
  exists charts : list Widget,
    List.length charts = 5%nat /\
    forall selected_page : string,
      create_page_layout selected_page df =
      Ok (evaluated df,
          (charts
           ++ (if py.any (recent (above_threshold (Vibration_ML df)))
               then alarm_page (last (Vibration_ML df) 0)
                               (py.sum (recent (above_threshold (Vibration_ML df))))
               else [])
           ++ [ button ("Analyze " ++ selected_page) ("btn_" ++ selected_page) ])%list).
Proof.
  eexists. split; [|intros selected_page].
  2: { unfold create_page_layout. cbv zeta. fold (evaluated df).
       rewrite alarm_indicator_evaluated.
       unfold evaluated at 1 3. unfold get_Above_Threshold, set_Above_Threshold.
       cbn [Above_Threshold bind]. reflexivity. }
  reflexivity.
Qed.

(** *** What the contract of NumPy gives *)

Lemma numpy_contract_inv (rs : np.RandomSource) :
  numpy_contract rs = true ->
  (forall i, (i < 721)%nat -> is_nan (np.normal_vib_iso rs i) = false) /\
  (forall i, (i < 721)%nat -> is_nan (np.normal_vib_ml rs i) = false) /\
  (forall j, (j < 10)%nat -> np.within 0.2 0.8 (np.uniform_vib_ml rs j) = true).
Proof.
  unfold numpy_contract. cbv zeta. rewrite dates_length, !andb_true_iff, !forallb_forall.
  intros [[[_ Hiso] Hml] Hu]. repeat split; intros i Hi.
  - apply negb_true_iff, Hiso, in_seq. lia.
  - apply negb_true_iff, Hml, in_seq. lia.
  - apply Hu, in_seq. lia.
Qed.

(** An injected value: the limit plus a draw of [uniform(0.2, 0.8)]. *)
Lemma injected_value (u : float) :
  np.within 0.2 0.8 u = true ->
  (VIB_ML_LIMIT <? VIB_ML_LIMIT + u) = true /\
  np.within (VIB_ML_LIMIT + 0.2) (VIB_ML_LIMIT + 0.8) (VIB_ML_LIMIT + u) = true /\
  np.within 0.2 0.8 (VIB_ML_LIMIT + u - VIB_ML_LIMIT) = true.
Proof.
  unfold np.within, VIB_ML_LIMIT. rewrite andb_true_iff. intros [H1 H2].
  destruct (F64.add_5_bounds u H1 H2) as (A & B & C & D & E).
  now rewrite A, B, C, D, E.
Qed.

(** The ten flags of the injected tail are all set. *)
Lemma injected_flags (rs : np.RandomSource) :
  numpy_contract rs = true ->
  above_threshold (map (fun j => VIB_ML_LIMIT + np.uniform_vib_ml rs j) (seq 0 10)) =
  repeat true 10.
Proof.
  intros H. destruct (numpy_contract_inv rs H) as (_ & _ & Hu).
  unfold above_threshold. rewrite map_map.
  change (repeat true 10) with (repeat true (List.length (seq 0 10))).
  rewrite <- map_const. apply map_ext_in. intros j Hj. apply in_seq in Hj.
  apply injected_value, Hu. lia.
Qed.

End app_facts.

(** ** Worked cases *)

Module tests.

Import pd app examples.
Local Open Scope string_scope.
Local Open Scope float_scope.

Example format_2f_last_value : py.format_2f 5.4 = "5.40".
Proof. vm_compute. reflexivity. Qed.

Example format_2f_distance : py.format_2f (5.4 - 5.0) = "0.40".
Proof. vm_compute. reflexivity. Qed.

Example format_2f_ties_to_even :
  py.format_2f 0.125 = "0.12" /\ py.format_2f 0.375 = "0.38".
Proof. vm_compute. split; reflexivity. Qed.

Example format_2f_exact_value :
  py.format_2f 2.675 = "2.67" /\ py.format_2f 0.999 = "1.00".
Proof. vm_compute. split; reflexivity. Qed.

Example format_2f_negative :
  py.format_2f (-0.5) = "-0.50" /\ py.format_2f (-0.001) = "-0.00".
Proof. vm_compute. split; reflexivity. Qed.

Example str_of_count : py.str 10 = "10" /\ py.str 0 = "0".
Proof. vm_compute. split; reflexivity. Qed.

Example item_cases :
  py.item (-1) [1; 2; 3]%Z = Ok 3%Z
  /\ py.item (-4) [1; 2; 3]%Z = Raise IndexError
  /\ py.item 3 [1; 2; 3]%Z = Raise IndexError
  /\ py.item (-1) (@nil Z) = Raise IndexError.
Proof. vm_compute. repeat split; reflexivity. Qed.

Example slice_cases :
  py.slice_from (-2) [1; 2; 3]%Z = [2; 3]%Z
  /\ py.slice_from (-10) [1; 2; 3]%Z = [1; 2; 3]%Z
  /\ py.slice_to (-2) [1; 2; 3]%Z = [1]%Z
  /\ py.slice_to (-10) [1; 2; 3]%Z = [].
Proof. vm_compute. repeat split; reflexivity. Qed.

Example clip1_cases :
  np.clip1 7.25 3.5 6.5 = 6.5 /\ np.clip1 1.5 3.5 6.5 = 3.5
  /\ np.clip1 4.75 3.5 6.5 = 4.75 /\ np.clip1 infinity 3.5 6.5 = 6.5
  /\ is_nan (np.clip1 nan 3.5 6.5) = true.
Proof. vm_compute. repeat split; reflexivity. Qed.

Example set_slice_cases :
  np.set_slice_from (-2) [1; 2; 3] [8; 9] = Ok [1; 8; 9]
  /\ np.set_slice_from (-10) [1; 2; 3] [8; 9] = Raise ValueError
  /\ np.set_slice_to (-2) [1; 2; 3] [7] = Ok [7; 2; 3].
Proof. vm_compute. repeat split; reflexivity. Qed.

Example first_and_last_timestamp :
  hd_error dates = Some (24 * 19358)%Z /\ last dates 0%Z = (24 * 19388)%Z.
Proof. vm_compute. split; reflexivity. Qed.

(** The three samples of [short_frame]: the reading equal to the limit is
    not flagged, the last one is, and the alarm counts one hour. *)
Example short_frame_page :
  exists (df : DataFrame) (page : list Widget),
    create_page_layout "Motor 1" short_frame = Ok (df, page)
    /\ Above_Threshold df = Some [false; false; true]
    /\ skipn 5 page =
       [ error alarm_message;
         columns
           [ [ metric "Current Vibration" "5.25 mm/s" "0.25 mm/s above limit" ];
             [ metric "Time in Alarm" "1 hours" "Critical condition" ] ];
         button "Analyze Motor 1" "btn_Motor 1" ].
Proof. eexists. eexists. vm_compute. repeat split; reflexivity. Qed.

(** A breach older than the last ten samples raises no alarm. *)
Example breach_outside_window :
  alarm_indicator
    (evaluated {| Date := []; Temperature := []; Vibration_ISO := [];
                  Vibration_ML := [9; 1; 1; 1; 1; 1; 1; 1; 1; 1; 1];
                  Above_Threshold := None |}) = Ok [].
Proof. vm_compute. reflexivity. Qed.

(** The column of flags must be there: the indicator alone, on a frame
    without it, raises. *)
Example indicator_needs_flags : alarm_indicator short_frame = Raise KeyError.
Proof. vm_compute. reflexivity. Qed.

(** A run of the script over [rs_example]: the last value the generator
    leaves to the noise, and the ten it injects. *)
Example script_run_tail :
  exists (df : DataFrame) (page : list Widget),
    script sin_example rs_example "Motor 2" = Ok (df, page)
    /\ py.slice_from (-11) (Vibration_ML df) =
       [ 3.8 + 2 * 0.3; 5.0 + 0.2; 5.0 + (0.2 + 0.06); 5.0 + (0.2 + 0.06 * 2);
         5.0 + (0.2 + 0.06 * 3); 5.0 + (0.2 + 0.06 * 4); 5.0 + (0.2 + 0.06 * 5);
         5.0 + (0.2 + 0.06 * 6); 5.0 + (0.2 + 0.06 * 7); 5.0 + (0.2 + 0.06 * 8);
         5.0 + 0.8 ].
Proof. eexists. eexists. vm_compute. split; reflexivity. Qed.

End tests.

(** ** The claims of the specification *)

Module claims.

Import pd app app_facts examples.
Local Open Scope string_scope.
Local Open Scope float_scope.

(** C1. For a series whose last ten Vibration-B readings are
    [5.1, 5.3, 4.9, 5.5, 5.0, 5.2, 4.95, 5.6, 5.05, 5.4], whatever comes
    before them, the page computes the flags [T,T,F,T,F,T,F,T,T,T] over
    those ten samples, raises the alarm, counts 7 samples in alarm, and shows
    the last value 5.40 with the distance 0.40 above the limit: the
    difference [last - 5.0] is 0.4 to within [1e-15]. *)
Theorem C1_scenario_flags_and_metrics :
  forall (selected_page : string) (dates : list Timestamp)
         (temperature vib_iso head : array) (column : option (list bool)),
    let df := {| Date := dates; Temperature := temperature; Vibration_ISO := vib_iso;
                 Vibration_ML := (head ++ scenario_tail)%list;
                 Above_Threshold := column |} in
    let flags := above_threshold (Vibration_ML df) in
    exists charts : list Widget,
      create_page_layout selected_page df =
      Ok (set_Above_Threshold flags df,
          (charts
           ++ [ error alarm_message;
                columns
                  [ [ metric "Current Vibration" "5.40 mm/s" "0.40 mm/s above limit" ];
                    [ metric "Time in Alarm" "7 hours" "Critical condition" ] ] ]
           ++ [ button ("Analyze " ++ selected_page) ("btn_" ++ selected_page) ])%list)
      /\ recent flags = [true; true; false; true; false; true; false; true; true; true]
      /\ py.sum (recent flags) = 7%nat
      /\ py.any (recent flags) = true
      /\ py.item (-1) (Vibration_ML df) = Ok 5.4
      /\ (abs (5.4 - VIB_ML_LIMIT - 0.4) <? 1e-15) = true
      /\ py.format_2f (5.4 - VIB_ML_LIMIT) = "0.40".
Proof.
  intros selected_page dates temperature vib_iso head column df flags.
  assert (R : recent flags = [true; true; false; true; false; true; false; true; true; true]).
  { unfold flags. rewrite recent_above_threshold. unfold recent. cbn [Vibration_ML df].
    rewrite py_facts.slice_from_app10 by reflexivity. reflexivity. }
  assert (L : last (Vibration_ML df) 0 = 5.4).
  { cbn [Vibration_ML df].
    change scenario_tail with (removelast scenario_tail ++ [5.4])%list.
    rewrite app_assoc. apply last_last. }
  destruct (create_page_layout_eq df) as (charts & _ & E).
  specialize (E selected_page).
  exists charts. fold flags in E. rewrite R, L in E.
  repeat split.
  - exact E.
  - exact R.
  - now rewrite R.
  - now rewrite R.
  - rewrite <- L. apply py_facts.item_last. cbn [Vibration_ML df].
    intros H. apply app_eq_nil in H. destruct H as [_ H]. discriminate H.
Qed.

(** C2. In every generated series, each of the last ten Vibration-B values
    is the limit 5.0 plus the draw of [uniform(0.2, 0.8)] made for that
    sample; it is strictly greater than the limit, and exceeds it by at
    least 0.2 and at most 0.8. *)
Theorem C2_tail_is_limit_plus_uniform :
  forall (np_sin : float -> float) (rs : np.RandomSource),
    numpy_contract rs = true ->
    exists df : DataFrame,
      generate_fake_data np_sin rs = Ok df /\
      List.length (recent (Vibration_ML df)) = 10%nat /\
      forall j : nat, (j < 10)%nat ->
        let u := np.uniform_vib_ml rs j in
        let v := VIB_ML_LIMIT + u in
        nth_error (recent (Vibration_ML df)) j = Some v /\
        np.within 0.2 0.8 u = true /\
        (VIB_ML_LIMIT <? v) = true /\
        np.within 0.2 0.8 (v - VIB_ML_LIMIT) = true /\
        np.within (VIB_ML_LIMIT + 0.2) (VIB_ML_LIMIT + 0.8) v = true.
Proof.
  intros np_sin rs H. destruct (numpy_contract_inv rs H) as (_ & _ & Hu).
  eexists. split; [apply generate_fake_data_eq|].
  cbn [Vibration_ML]. unfold recent.
  rewrite py_facts.slice_from_app10 by now rewrite length_map, length_seq.
  split; [now rewrite length_map, length_seq|].
  intros j Hj.
  destruct (injected_value _ (Hu j Hj)) as (A & B & C).
  repeat split; try assumption; [|now apply Hu].
  rewrite nth_error_map, nth_error_seq.
  destruct (Nat.ltb_spec j 10); [reflexivity|lia].
Qed.

Lemma C2_witness :
  exists df : DataFrame,
    generate_fake_data sin_example rs_example = Ok df /\
    List.length (recent (Vibration_ML df)) = 10%nat /\
    forall j : nat, (j < 10)%nat ->
      let u := np.uniform_vib_ml rs_example j in
      let v := VIB_ML_LIMIT + u in
      nth_error (recent (Vibration_ML df)) j = Some v /\
      np.within 0.2 0.8 u = true /\
      (VIB_ML_LIMIT <? v) = true /\
      np.within 0.2 0.8 (v - VIB_ML_LIMIT) = true /\
      np.within (VIB_ML_LIMIT + 0.2) (VIB_ML_LIMIT + 0.8) v = true.
Proof.
  apply (C2_tail_is_limit_plus_uniform sin_example rs_example).
  vm_compute. reflexivity.
Defined.

(** C3. The alarm is raised exactly when a flag of the trailing window of
    the last ten samples is set; a series whose readings are all at or below
    the limit raises no alarm and counts no sample in alarm. *)
Theorem C3_alarm_iff_flag_in_window :
  forall (selected_page : string) (df : DataFrame),
    let flags := above_threshold (Vibration_ML df) in
    exists charts alarm : list Widget,
      create_page_layout selected_page df =
      Ok (set_Above_Threshold flags df,
          (charts ++ alarm
           ++ [ button ("Analyze " ++ selected_page) ("btn_" ++ selected_page) ])%list)
      /\ alarm_indicator (set_Above_Threshold flags df) = Ok alarm
      /\ alarm = (if py.any (recent flags)
                  then alarm_page (last (Vibration_ML df) 0) (py.sum (recent flags))
                  else [])
      /\ (alarm <> [] <-> py.any (recent flags) = true)
      /\ (py.any (recent flags) = true <->
          exists i : nat,
            (List.length flags - 10 <= i < List.length flags)%nat /\
            nth_error flags i = Some true)
      /\ (Forall (fun x => (x <=? VIB_ML_LIMIT) = true) (Vibration_ML df) ->
          alarm = [] /\ py.any (recent flags) = false /\ py.sum (recent flags) = 0%nat).
Proof.
  intros selected_page df flags.
  destruct (create_page_layout_eq df) as (charts & _ & E).
  specialize (E selected_page).
  fold flags in E. exists charts. eexists. split; [exact E|].
  split; [apply alarm_indicator_evaluated|].
  split; [reflexivity|].
  assert (W : py.any (recent flags) = true <->
              exists i : nat,
                (List.length flags - 10 <= i < List.length flags)%nat /\
                nth_error flags i = Some true).
  { rewrite py_facts.any_true_iff. unfold recent. split.
    - intros (i & Hi). rewrite py_facts.nth_error_slice_from in Hi.
      exists (List.length flags - 10 + i)%nat. split; [|exact Hi].
      assert (nth_error flags (List.length flags - 10 + i) <> None) as Hn by congruence.
      apply nth_error_Some in Hn. lia.
    - intros (i & Hi & Hf). exists (i - (List.length flags - 10))%nat.
      rewrite py_facts.nth_error_slice_from.
      now replace (List.length flags - 10 + (i - (List.length flags - 10)))%nat
        with i by lia. }
  split; [|split; [exact W|]].
  - destruct (py.any (recent flags)); split; intros H; try discriminate;
      try reflexivity; now elim H.
  - intros Hall.
    assert (F : Forall (fun b => b = false) (recent flags)).
    { apply Forall_forall. intros b Hb.
      apply py_facts.in_slice_from in Hb. unfold flags, above_threshold in Hb.
      apply in_map_iff in Hb. destruct Hb as (x & <- & Hx).
      apply F64.leb_not_ltb. revert x Hx. now apply Forall_forall. }
    apply py_facts.any_false_iff in F as A. rewrite A.
    repeat split. now apply py_facts.sum_all_false.
Qed.

(** C4. The flag of a sample is the strict comparison of its Vibration-B
    reading with the limit: [flag[i] = reading[i] > limit], and a reading
    equal to the limit is not flagged. *)
Theorem C4_flag_is_strict_comparison :
  forall (selected_page : string) (df : DataFrame),
    exists (page : list Widget) (flags : list bool),
      create_page_layout selected_page df = Ok (set_Above_Threshold flags df, page)
      /\ flags = above_threshold (Vibration_ML df)
      /\ List.length flags = List.length (Vibration_ML df)
      /\ (forall (i : nat) (x : float),
            nth_error (Vibration_ML df) i = Some x ->
            nth_error flags i = Some (VIB_ML_LIMIT <? x))
      /\ (forall (i : nat) (x : float),
            nth_error (Vibration_ML df) i = Some x ->
            (x =? VIB_ML_LIMIT) = true ->
            nth_error flags i = Some false).
Proof.
  intros selected_page df.
  destruct (create_page_layout_eq df) as (charts & _ & E).
  specialize (E selected_page).
  eexists. exists (above_threshold (Vibration_ML df)).
  split; [exact E|]. split; [reflexivity|].
  split; [apply above_threshold_length|].
  assert (N : forall (i : nat) (x : float),
             nth_error (Vibration_ML df) i = Some x ->
             nth_error (above_threshold (Vibration_ML df)) i = Some (VIB_ML_LIMIT <? x)).
  { intros i x Hx. unfold above_threshold. now rewrite nth_error_map, Hx. }
  split; [exact N|].
  intros i x Hx Heq. rewrite (N i x Hx). f_equal. now apply F64.eqb_not_ltb.
Qed.

(** C5. Every generated series has 721 samples, one per hour from
    2023-01-01 00:00 to 2023-01-31 00:00, both included. *)
Theorem C5_series_length :
  forall (np_sin : float -> float) (rs : np.RandomSource),
    exists df : DataFrame,
      generate_fake_data np_sin rs = Ok df
      /\ List.length (Date df) = 721%nat
      /\ List.length (Temperature df) = 721%nat
      /\ List.length (Vibration_ISO df) = 721%nat
      /\ List.length (Vibration_ML df) = 721%nat
      /\ Z.of_nat (List.length (Date df)) =
         (midnight {| year := 2023; month := 1; day := 31 |}
          - midnight {| year := 2023; month := 1; day := 1 |} + 1)%Z
      /\ (forall i : nat, (i < 721)%nat ->
            nth_error (Date df) i =
            Some (midnight {| year := 2023; month := 1; day := 1 |} + Z.of_nat i)%Z).
Proof.
  intros np_sin rs. eexists. split; [apply generate_fake_data_eq|].
  cbn [Date Temperature Vibration_ISO Vibration_ML].
  rewrite length_app, !length_map, !length_seq, dates_length.
  repeat split.
  intros i Hi. unfold dates, date_range.
  rewrite nth_error_map, nth_error_seq.
  change (Z.to_nat _) with 721%nat.
  destruct (Nat.ltb_spec i 721); [reflexivity|lia].
Qed.

(** C6. In every generated series each Vibration-A value lies in
    [3.5, 6.5], and each Vibration-B value but the last ten lies in
    [3.0, 4.8]. *)
Theorem C6_channels_within_bounds :
  forall (np_sin : float -> float) (rs : np.RandomSource),
    numpy_contract rs = true ->
    exists df : DataFrame,
      generate_fake_data np_sin rs = Ok df
      /\ Forall (fun x => np.within 3.5 6.5 x = true) (Vibration_ISO df)
      /\ Forall (fun x => np.within 3.0 4.8 x = true) (py.slice_to (-10) (Vibration_ML df)).
Proof.
  intros np_sin rs H. destruct (numpy_contract_inv rs H) as (Hiso & Hml & _).
  eexists. split; [apply generate_fake_data_eq|].
  cbn [Vibration_ISO Vibration_ML].
  rewrite py_facts.slice_to_app10 by now rewrite length_map, length_seq.
  split; apply Forall_forall; intros x Hx; apply in_map_iff in Hx;
    destruct Hx as (i & <- & Hi); apply in_seq in Hi;
    (apply np_facts.clip1_within; [|reflexivity]).
  - eapply F64.add_finite_not_nan; [vm_compute; reflexivity|apply Hiso; lia].
  - eapply F64.add_finite_not_nan; [vm_compute; reflexivity|apply Hml; lia].
Qed.

Lemma C6_witness :
  exists df : DataFrame,
    generate_fake_data sin_example rs_example = Ok df
    /\ Forall (fun x => np.within 3.5 6.5 x = true) (Vibration_ISO df)
    /\ Forall (fun x => np.within 3.0 4.8 x = true) (py.slice_to (-10) (Vibration_ML df)).
Proof.
  apply (C6_channels_within_bounds sin_example rs_example).
  vm_compute. reflexivity.
Defined.

(** C7. On a series of fewer than ten samples the alarm is evaluated over
    the whole series, and the page is laid out without an error: the
    trailing window of the flags is the column of flags itself. *)
Theorem C7_short_series_window :
  forall (selected_page : string) (df : DataFrame),
    (List.length (Vibration_ML df) < 10)%nat ->
    let flags := above_threshold (Vibration_ML df) in
    exists charts alarm : list Widget,
      create_page_layout selected_page df =
      Ok (set_Above_Threshold flags df,
          (charts ++ alarm
           ++ [ button ("Analyze " ++ selected_page) ("btn_" ++ selected_page) ])%list)
      /\ alarm_indicator (set_Above_Threshold flags df) = Ok alarm
      /\ recent flags = flags
      /\ recent (Vibration_ML df) = Vibration_ML df
      /\ (alarm <> [] <-> py.any flags = true)
      /\ (alarm <> [] ->
          alarm = alarm_page (last (Vibration_ML df) 0) (py.sum flags)).
Proof.
  intros selected_page df Hlen flags.
  assert (R : recent flags = flags).
  { apply py_facts.slice_from_short. unfold flags. rewrite above_threshold_length. lia. }
  destruct (create_page_layout_eq df) as (charts & _ & E).
  specialize (E selected_page).
  fold flags in E. rewrite R in E. exists charts. eexists.
  split; [exact E|]. split.
  - change (set_Above_Threshold flags df) with (evaluated df).
    rewrite alarm_indicator_evaluated. fold flags. now rewrite R.
  - split; [exact R|]. split; [apply py_facts.slice_from_short; lia|].
    destruct (py.any flags); split; try split; intros H; try discriminate;
      try reflexivity; now elim H.
Qed.

Lemma C7_witness :
  let flags := above_threshold (Vibration_ML short_frame) in
  exists charts alarm : list Widget,
    create_page_layout "Motor 1" short_frame =
    Ok (set_Above_Threshold flags short_frame,
        (charts ++ alarm ++ [ button ("Analyze " ++ "Motor 1") ("btn_" ++ "Motor 1") ])%list)
    /\ alarm_indicator (set_Above_Threshold flags short_frame) = Ok alarm
    /\ recent flags = flags
    /\ recent (Vibration_ML short_frame) = Vibration_ML short_frame
    /\ (alarm <> [] <-> py.any flags = true)
    /\ (alarm <> [] ->
        alarm = alarm_page (last (Vibration_ML short_frame) 0) (py.sum flags)).
Proof.
  apply (C7_short_series_window "Motor 1" short_frame).
  cbn [short_frame Vibration_ML List.length]. lia.
Defined.

(** C8. The alarm evaluation is a function of the series alone: laid out
    again on the frame it has left, the page is the same and the frame is
    unchanged; and two frames with the same Vibration-B series get the same
    flags, alarm state, last value, distance above the limit and count. *)
Theorem C8_evaluation_is_pure :
  forall (selected_page : string) (df : DataFrame),
    exists (df1 : DataFrame) (page : list Widget),
      create_page_layout selected_page df = Ok (df1, page)
      /\ create_page_layout selected_page df1 = Ok (df1, page)
      /\ (forall df2 : DataFrame,
            Vibration_ML df2 = Vibration_ML df ->
            exists (df2' : DataFrame) (page2 : list Widget),
              create_page_layout selected_page df2 = Ok (df2', page2)
              /\ Above_Threshold df2' = Above_Threshold df1
              /\ alarm_indicator df2' = alarm_indicator df1
              /\ py.item (-1) (Vibration_ML df2') = py.item (-1) (Vibration_ML df1)).
Proof.
  intros selected_page df.
  destruct (create_page_layout_eq df) as (charts & _ & E).
  specialize (E selected_page).
  exists (evaluated df). eexists. split; [exact E|]. split.
  - rewrite <- E. unfold create_page_layout, evaluated, set_Above_Threshold.
    cbn [Date Temperature Vibration_ISO Vibration_ML Above_Threshold]. reflexivity.
  - intros df2 H2.
    destruct (create_page_layout_eq df2) as (charts2 & _ & E2).
    specialize (E2 selected_page).
    exists (evaluated df2). eexists. split; [exact E2|].
    rewrite !alarm_indicator_evaluated, H2.
    unfold evaluated, set_Above_Threshold. cbn [Above_Threshold Vibration_ML].
    rewrite H2. repeat split.
Qed.

(** C9. The selected page has no effect on the generated series: over one
    random source, two runs of the script that differ in the page alone
    produce the same frame, and differ on the page in its title and button
    alone. *)
Theorem C9_page_does_not_affect_series :
  forall (np_sin : float -> float) (rs : np.RandomSource) (page1 page2 : string),
    exists (df : DataFrame) (body : list Widget),
      generate_fake_data np_sin rs = Ok df
      /\ script np_sin rs page1 =
         Ok (evaluated df,
             selectbox "Select Page" pages :: title page1
             :: (body ++ [ button ("Analyze " ++ page1) ("btn_" ++ page1) ])%list)
      /\ script np_sin rs page2 =
         Ok (evaluated df,
             selectbox "Select Page" pages :: title page2
             :: (body ++ [ button ("Analyze " ++ page2) ("btn_" ++ page2) ])%list).
Proof.
  intros np_sin rs page1 page2. unfold script.
  rewrite generate_fake_data_eq. cbn [bind].
  match goal with
  | |- context [create_page_layout page1 ?d] =>
      exists d; destruct (create_page_layout_eq d) as (charts & _ & E)
  end.
  rewrite (E page1), (E page2). cbn [bind fst snd].
  rewrite !(app_assoc charts). eexists. repeat split.
Qed.


(** C10. Every generated series raises the alarm: its ten injected values
    are all flagged, so the alarm state is true and ten samples are counted
    in alarm, and every run of the script shows the alarm and its two
    metrics, on whatever page. *)
Theorem C10_generated_series_always_alarms :
  forall (np_sin : float -> float) (rs : np.RandomSource) (selected_page : string),
    numpy_contract rs = true ->
    exists (df : DataFrame) (charts : list Widget),
      let flags := above_threshold (Vibration_ML df) in
      let current := VIB_ML_LIMIT + np.uniform_vib_ml rs 9 in
      generate_fake_data np_sin rs = Ok df
      /\ recent flags = repeat true 10
      /\ py.any (recent flags) = true
      /\ py.sum (recent flags) = 10%nat
      /\ py.item (-1) (Vibration_ML df) = Ok current
      /\ script np_sin rs selected_page =
         Ok (set_Above_Threshold flags df,
             selectbox "Select Page" pages :: title selected_page
             :: (charts
                 ++ [ error alarm_message;
                      columns
                        [ [ metric "Current Vibration"
                                   (py.format_2f current ++ " mm/s")
                                   (py.format_2f (current - VIB_ML_LIMIT)
                                    ++ " mm/s above limit") ];
                          [ metric "Time in Alarm" "10 hours" "Critical condition" ] ] ]
                 ++ [ button ("Analyze " ++ selected_page)
                             ("btn_" ++ selected_page) ])%list).
Proof.
  intros np_sin rs selected_page H. unfold script.
  rewrite generate_fake_data_eq. cbn [bind].
  match goal with
  | |- context [create_page_layout selected_page ?d] =>
      exists d; destruct (create_page_layout_eq d) as (charts & _ & E);
      rewrite (E selected_page); clear E; set (df := d)
  end.
  exists charts. cbv zeta.
  assert (R : recent (above_threshold (Vibration_ML df)) = repeat true 10).
  { rewrite recent_above_threshold. unfold recent. cbn [Vibration_ML df].
    rewrite py_facts.slice_from_app10 by now rewrite length_map, length_seq.
    now apply injected_flags. }
  assert (L : last (Vibration_ML df) 0 = VIB_ML_LIMIT + np.uniform_vib_ml rs 9).
  { cbn [Vibration_ML df]. change (seq 0 10) with (seq 0 9 ++ [9%nat])%list.
    rewrite map_app, app_assoc. apply last_last. }
  assert (I : py.item (-1) (Vibration_ML df)
              = Ok (VIB_ML_LIMIT + np.uniform_vib_ml rs 9)).
  { rewrite <- L. apply py_facts.item_last. cbn [Vibration_ML df].
    intros N. apply app_eq_nil in N. destruct N as [_ N]. discriminate N. }
  rewrite R, L, I. cbn [bind fst snd]. repeat split.
Qed.

Lemma C10_witness :
  exists (df : DataFrame) (charts : list Widget),
    let flags := above_threshold (Vibration_ML df) in
    let current := VIB_ML_LIMIT + np.uniform_vib_ml rs_example 9 in
    generate_fake_data sin_example rs_example = Ok df
    /\ recent flags = repeat true 10
    /\ py.any (recent flags) = true
    /\ py.sum (recent flags) = 10%nat
    /\ py.item (-1) (Vibration_ML df) = Ok current
    /\ script sin_example rs_example "Conveyor 1" =
       Ok (set_Above_Threshold flags df,
           selectbox "Select Page" pages :: title "Conveyor 1"
           :: (charts
               ++ [ error alarm_message;
                    columns
                      [ [ metric "Current Vibration"
                                 (py.format_2f current ++ " mm/s")
                                 (py.format_2f (current - VIB_ML_LIMIT)
                                  ++ " mm/s above limit") ];
                        [ metric "Time in Alarm" "10 hours" "Critical condition" ] ] ]
               ++ [ button ("Analyze " ++ "Conveyor 1")
                           ("btn_" ++ "Conveyor 1") ])%list).
Proof.
  apply (C10_generated_series_always_alarms sin_example rs_example "Conveyor 1").
  vm_compute. reflexivity.
Defined.

End claims.

(** ** The order of binary64, across three numbers *)

Module F64_order.

Open Scope Z_scope.

Ltac cmp_cases :=
  repeat match goal with
    | H : context [Pos.compare_cont Eq ?a ?b] |- _ =>
        change (Pos.compare_cont Eq a b) with (Pos.compare a b) in H
    | |- context [Pos.compare_cont Eq ?a ?b] =>
        change (Pos.compare_cont Eq a b) with (Pos.compare a b)
    end;
  repeat match goal with
    | H : context [Z.compare ?a ?b] |- _ => destruct (Z.compare_spec a b)
    | |- context [Z.compare ?a ?b] => destruct (Z.compare_spec a b)
    | H : context [Pos.compare ?a ?b] |- _ => destruct (Pos.compare_spec a b)
    | |- context [Pos.compare ?a ?b] => destruct (Pos.compare_spec a b)
    end;
  cbn [CompOpp] in *; try discriminate; try reflexivity; subst; try lia.

(** [x <= y] and [y < z] give [x < z]. *)
Lemma SFleb_ltb_trans (x y z : spec_float) :
  SFleb x y = true -> SFltb y z = true -> SFltb x z = true.
Proof.
  unfold SFleb, SFltb, SFcompare.
  destruct x as [sx|sx| |sx mx ex], y as [sy|sy| |sy my ey], z as [sz|sz| |sz mz ez];
    try destruct sx; try destruct sy; try destruct sz;
    try discriminate; try reflexivity; intros H1 H2; cmp_cases.
Qed.

Lemma leb_ltb_trans (x y z : float) :
  (x <=? y)%float = true -> (y <? z)%float = true -> (x <? z)%float = true.
Proof.
  rewrite FloatAxioms.leb_spec, !FloatAxioms.ltb_spec. apply SFleb_ltb_trans.
Qed.

(** [x < y] excludes [y < x]. *)
Lemma ltb_asym (x y : float) : (x <? y)%float = true -> (y <? x)%float = false.
Proof. intros H. apply F64.leb_not_ltb, F64.ltb_leb, H. Qed.

(** [x < y] excludes [y <= x]. *)
Lemma ltb_not_leb (x y : float) : (x <? y)%float = true -> (y <=? x)%float = false.
Proof.
  rewrite FloatAxioms.ltb_spec, FloatAxioms.leb_spec. unfold SFltb, SFleb.
  rewrite (F64.SFcompare_swap (Prim2SF x) (Prim2SF y)).
  destruct (SFcompare (Prim2SF x) (Prim2SF y)) as [[| |]|]; easy.
Qed.

(** No number is above a NaN, and a NaN is above no number. *)
Lemma ltb_nan_r (x y : float) : is_nan y = true -> (x <? y)%float = false.
Proof.
  rewrite F64.is_nan_spec, FloatAxioms.ltb_spec. unfold SFltb.
  destruct (Prim2SF y); try discriminate. intros _.
  destruct (Prim2SF x); reflexivity.
Qed.

End F64_order.

(** ** Masks and the rows they select *)

Module trace_facts.

Import pd app.
Local Open Scope float_scope.

(** A mask computed from a column selects from it what a filter would. *)
Lemma where_map_self {A : Type} (f : A -> bool) (l : list A) :
  where_ (map f l) l = filter f l.
Proof.
  unfold where_. induction l as [|a l IH]; [reflexivity|].
  cbn [map combine filter fst]. destruct (f a); cbn [map snd]; now rewrite IH.
Qed.

(** The same mask on a second column of the same length keeps the rows
    together. *)
Lemma where_map_rows {A B : Type} (f : A -> bool) (l : list A) (c : list B) :
  List.length c = List.length l ->
  combine (where_ (map f l) c) (where_ (map f l) l) =
  filter (fun row => f (snd row)) (combine c l).
Proof.
  unfold where_. revert c. induction l as [|a l IH]; intros [|b c] H;
    try discriminate H; [reflexivity|].
  cbn [map combine filter fst snd]. destruct (f a); cbn [map snd combine];
    rewrite IH by (cbn [List.length] in H; lia); reflexivity.
Qed.

Lemma where_map_length {A B : Type} (f : A -> bool) (l : list A) (c : list B) :
  List.length c = List.length l ->
  List.length (where_ (map f l) c) = List.length (filter f l).
Proof.
  unfold where_. revert c. induction l as [|a l IH]; intros [|b c] H;
    try discriminate H; [reflexivity|].
  cbn [map combine filter fst]. destruct (f a); cbn [map List.length];
    rewrite IH by (cbn [List.length] in H; lia); reflexivity.
Qed.

Lemma combine_app {A B : Type} (a1 a2 : list A) (b1 b2 : list B) :
  List.length a1 = List.length b1 ->
  combine (a1 ++ a2) (b1 ++ b2) = (combine a1 b1 ++ combine a2 b2)%list.
Proof.
  revert b1. induction a1 as [|x a1 IH]; intros [|y b1] H; try discriminate H;
    [reflexivity|].
  cbn [app combine]. rewrite IH by (cbn [List.length] in H; lia). reflexivity.
Qed.

Lemma where_app {A : Type} (m1 m2 : list bool) (c1 c2 : list A) :
  List.length m1 = List.length c1 ->
  where_ (m1 ++ m2) (c1 ++ c2) = (where_ m1 c1 ++ where_ m2 c2)%list.
Proof.
  intros H. unfold where_. rewrite combine_app by assumption.
  now rewrite filter_app, map_app.
Qed.

Lemma where_none {A : Type} (n : nat) (c : list A) : where_ (repeat false n) c = [].
Proof.
  unfold where_. revert c. induction n as [|n IH]; intros [|a c]; try reflexivity.
  cbn [repeat combine filter fst]. apply IH.
Qed.

Lemma where_all {A : Type} (c : list A) : where_ (repeat true (List.length c)) c = c.
Proof.
  unfold where_. induction c as [|a c IH]; [reflexivity|].
  cbn [List.length repeat combine filter fst map snd]. now rewrite IH.
Qed.

(** A mask that is set on the last ten rows and on no other selects the
    trailing window, and its negation the rest. *)
Lemma where_last10 {A : Type} (n : nat) (c : list A) :
  List.length c = (n + 10)%nat ->
  where_ (repeat false n ++ repeat true 10) c = py.slice_from (-10) c
  /\ where_ (map negb (repeat false n ++ repeat true 10)) c = py.slice_to (-10) c.
Proof.
  intros H. rewrite py_facts.slice_from_last10, py_facts.slice_to_last10, H.
  replace (n + 10 - 10)%nat with n by lia.
  assert (L1 : List.length (firstn n c) = n) by (rewrite length_firstn; lia).
  assert (L2 : List.length (skipn n c) = 10%nat) by (rewrite length_skipn; lia).
  rewrite map_app, !map_repeat. cbn [negb].
  rewrite <- (firstn_skipn n c) at 1 3. split.
  - rewrite where_app by now rewrite repeat_length.
    rewrite where_none, <- L2. apply where_all.
  - rewrite where_app by now rewrite repeat_length.
    rewrite where_none, app_nil_r, <- L1 at 1. apply where_all.
Qed.

Lemma last_app_nonempty {A : Type} (a b : list A) (d : A) :
  b <> [] -> last (a ++ b) d = last b d.
Proof.
  intros Hb. induction a as [|x a IH]; [reflexivity|].
  cbn [app]. rewrite <- IH. destruct (a ++ b)%list eqn:E; [|reflexivity].
  apply app_eq_nil in E. now destruct E.
Qed.

(** The last reading of a series is the last reading of its window. *)
Lemma last_recent {A : Type} (l : list A) (d : A) : last (recent l) d = last l d.
Proof.
  destruct l as [|a l]; [reflexivity|]. unfold recent.
  rewrite py_facts.slice_from_last10.
  rewrite <- (firstn_skipn (List.length (a :: l) - 10) (a :: l)) at 3.
  symmetry. apply last_app_nonempty. intros E.
  apply (f_equal (@List.length A)) in E. rewrite length_skipn in E.
  cbn [List.length] in E. lia.
Qed.



End trace_facts.

(** ** Further properties of [app.py] *)

Module extras.

Import pd app app_facts trace_facts examples more_examples.
Local Open Scope string_scope.
Local Open Scope float_scope.

Lemma quiet_not_flagged (x : float) : quiet x = true -> (VIB_ML_LIMIT <? x) = false.
Proof.
  unfold quiet. intros H. apply orb_true_iff in H. destruct H as [H|H].
  - now apply F64_order.ltb_nan_r.
  - now apply F64.leb_not_ltb.
Qed.

(** X1. When each of the last ten readings is at or below the limit or is
    NaN, the page has no alarm, whatever the older readings are: a NaN is
    never a breach, and a breach older than ten samples is forgotten. *)
Theorem X1_quiet_window_no_alarm :
  forall (selected_page : string) (df : DataFrame),
    forallb quiet (recent (Vibration_ML df)) = true ->
    exists charts : list Widget,
      List.length charts = 5%nat
      /\ create_page_layout selected_page df =
         Ok (evaluated df,
             (charts
              ++ [ button ("Analyze " ++ selected_page) ("btn_" ++ selected_page) ])%list)
      /\ alarm_indicator (evaluated df) = Ok []
      /\ py.sum (recent (above_threshold (Vibration_ML df))) = 0%nat.
Proof.
  intros selected_page df H.
  assert (F : Forall (fun b => b = false) (recent (above_threshold (Vibration_ML df)))).
  { rewrite recent_above_threshold. unfold above_threshold.
    apply Forall_forall. intros b Hb. apply in_map_iff in Hb.
    destruct Hb as (x & <- & Hx). apply quiet_not_flagged.
    rewrite forallb_forall in H. now apply H. }
  apply py_facts.any_false_iff in F as A.
  destruct (create_page_layout_eq df) as (charts & L & E).
  specialize (E selected_page). rewrite A in E. cbn [app] in E.
  exists charts. split; [exact L|]. split; [exact E|]. split.
  - now rewrite alarm_indicator_evaluated, A.
  - now apply py_facts.sum_all_false.
Qed.

Lemma X1_witness :
  exists charts : list Widget,
    List.length charts = 5%nat
    /\ create_page_layout "Motor 1" quiet_frame =
       Ok (evaluated quiet_frame,
           (charts ++ [ button ("Analyze " ++ "Motor 1") ("btn_" ++ "Motor 1") ])%list)
    /\ alarm_indicator (evaluated quiet_frame) = Ok []
    /\ py.sum (recent (above_threshold (Vibration_ML quiet_frame))) = 0%nat.
Proof.
  apply (X1_quiet_window_no_alarm "Motor 1" quiet_frame).
  vm_compute. reflexivity.
Defined.

(** The alarm read off two series with the same trailing window. *)
Lemma alarm_same_window (ml1 ml2 : array) :
  recent ml1 = recent ml2 ->
  (if py.any (recent (above_threshold ml1))
   then alarm_page (last ml1 0) (py.sum (recent (above_threshold ml1)))
   else [])
  = (if py.any (recent (above_threshold ml2))
     then alarm_page (last ml2 0) (py.sum (recent (above_threshold ml2)))
     else []).
Proof.
  intros H.
  assert (L : last ml1 0 = last ml2 0)
    by (rewrite <- (last_recent ml1), H; apply last_recent).
  now rewrite !recent_above_threshold, H, L.
Qed.

(** X2. The alarm is a function of the last ten readings: two frames whose
    Vibration-B columns end in the same ten readings (or are the same
    shorter series) show the same alarm, whatever their older readings and
    their other columns. *)
Theorem X2_alarm_depends_on_window_only :
  forall (selected_page : string) (df1 df2 : DataFrame),
    recent (Vibration_ML df1) = recent (Vibration_ML df2) ->
    exists charts1 charts2 alarm : list Widget,
      create_page_layout selected_page df1 =
      Ok (evaluated df1,
          (charts1 ++ alarm
           ++ [ button ("Analyze " ++ selected_page) ("btn_" ++ selected_page) ])%list)
      /\ create_page_layout selected_page df2 =
         Ok (evaluated df2,
             (charts2 ++ alarm
              ++ [ button ("Analyze " ++ selected_page) ("btn_" ++ selected_page) ])%list)
      /\ alarm_indicator (evaluated df1) = Ok alarm
      /\ alarm_indicator (evaluated df2) = Ok alarm.
Proof.
  intros selected_page df1 df2 H.
  destruct (create_page_layout_eq df1) as (charts1 & _ & E1).
  destruct (create_page_layout_eq df2) as (charts2 & _ & E2).
  specialize (E1 selected_page). specialize (E2 selected_page).
  rewrite !alarm_indicator_evaluated.
  rewrite (alarm_same_window _ _ H) in *.
  exists charts1, charts2. eexists. repeat split; eassumption.
Qed.

Lemma X2_witness :
  exists charts1 charts2 alarm : list Widget,
    create_page_layout "Motor 2" long_frame =
    Ok (evaluated long_frame,
        (charts1 ++ alarm
         ++ [ button ("Analyze " ++ "Motor 2") ("btn_" ++ "Motor 2") ])%list)
    /\ create_page_layout "Motor 2" ten_frame =
       Ok (evaluated ten_frame,
           (charts2 ++ alarm
            ++ [ button ("Analyze " ++ "Motor 2") ("btn_" ++ "Motor 2") ])%list)
    /\ alarm_indicator (evaluated long_frame) = Ok alarm
    /\ alarm_indicator (evaluated ten_frame) = Ok alarm.
Proof.
  apply (X2_alarm_depends_on_window_only "Motor 2" long_frame ten_frame).
  vm_compute. reflexivity.
Defined.


(** X4. On a frame whose Date and Vibration-B columns have one length, the
    third chart draws the whole series and two traces that split its
    samples: the red one holds, in order, the samples (timestamp and
    reading together) whose reading exceeds the limit, the blue one the
    others, so every sample is on exactly one of them. *)
Theorem X4_traces_split_the_samples :
  forall (selected_page : string) (df : DataFrame),
    List.length (Date df) = List.length (Vibration_ML df) ->
    exists (fig1 fig2 fig3 : Figure) (rest : list Widget) (blue red : Scatter),
      create_page_layout selected_page df =
      Ok (evaluated df,
          plotly_chart fig1 :: markdown "---" :: plotly_chart fig2 :: markdown "---"
          :: plotly_chart fig3 :: rest)
      /\ fig_x fig3 = Date df /\ fig_y fig3 = Vibration_ML df
      /\ fig_traces fig3 = [blue; red]
      /\ sc_color blue = "blue" /\ sc_color red = "red"
      /\ combine (sc_x red) (sc_y red) =
         filter (fun row => VIB_ML_LIMIT <? snd row) (combine (Date df) (Vibration_ML df))
      /\ combine (sc_x blue) (sc_y blue) =
         filter (fun row => negb (VIB_ML_LIMIT <? snd row))
                (combine (Date df) (Vibration_ML df))
      /\ List.length (sc_x red) = List.length (sc_y red)
      /\ List.length (sc_x blue) = List.length (sc_y blue)
      /\ (List.length (sc_y blue) + List.length (sc_y red))%nat
         = List.length (Vibration_ML df)
      /\ Forall (fun y => (VIB_ML_LIMIT <? y) = true) (sc_y red)
      /\ Forall (fun y => (VIB_ML_LIMIT <? y) = false) (sc_y blue).
Proof.
  intros selected_page df H.
  unfold create_page_layout. cbv zeta. fold (evaluated df).
  rewrite alarm_indicator_evaluated.
  unfold evaluated at 1 3. unfold get_Above_Threshold, set_Above_Threshold.
  cbn [Above_Threshold bind Date Vibration_ML app].
  do 6 eexists. split; [reflexivity|].
  cbn [fig_x fig_y fig_traces update_layout add_hline add_scatter px.line app
       sc_x sc_y sc_color].
  unfold above_threshold. rewrite map_map.
  set (f := fun x : float => VIB_ML_LIMIT <? x).
  set (g := fun x : float => negb (VIB_ML_LIMIT <? x)).
  repeat split;
    cbn [sc_x sc_y evaluated set_Above_Threshold Date Vibration_ML];
    change (fun x : float => negb (VIB_ML_LIMIT <? x)) with g;
    change (fun x : float => VIB_ML_LIMIT <? x) with f.
  - now rewrite (where_map_rows f).
  - now rewrite (where_map_rows g).
  - now rewrite !(where_map_length f).
  - now rewrite !(where_map_length g).
  - rewrite (where_map_self f), (where_map_self g), Nat.add_comm.
    apply (filter_length f).
  - rewrite (where_map_self f). apply Forall_forall. intros y Hy.
    now apply filter_In in Hy.
  - rewrite (where_map_self g). apply Forall_forall. intros y Hy.
    apply filter_In in Hy. now apply negb_true_iff.
Qed.

Lemma X4_witness :
  exists (fig1 fig2 fig3 : Figure) (rest : list Widget) (blue red : Scatter),
    create_page_layout "Conveyor 1" long_frame =
    Ok (evaluated long_frame,
        plotly_chart fig1 :: markdown "---" :: plotly_chart fig2 :: markdown "---"
        :: plotly_chart fig3 :: rest)
    /\ fig_x fig3 = Date long_frame /\ fig_y fig3 = Vibration_ML long_frame
    /\ fig_traces fig3 = [blue; red]
    /\ sc_color blue = "blue" /\ sc_color red = "red"
    /\ combine (sc_x red) (sc_y red) =
       filter (fun row => VIB_ML_LIMIT <? snd row)
              (combine (Date long_frame) (Vibration_ML long_frame))
    /\ combine (sc_x blue) (sc_y blue) =
       filter (fun row => negb (VIB_ML_LIMIT <? snd row))
              (combine (Date long_frame) (Vibration_ML long_frame))
    /\ List.length (sc_x red) = List.length (sc_y red)
    /\ List.length (sc_x blue) = List.length (sc_y blue)
    /\ (List.length (sc_y blue) + List.length (sc_y red))%nat
       = List.length (Vibration_ML long_frame)
    /\ Forall (fun y => (VIB_ML_LIMIT <? y) = true) (sc_y red)
    /\ Forall (fun y => (VIB_ML_LIMIT <? y) = false) (sc_y blue).
Proof.
  apply (X4_traces_split_the_samples "Conveyor 1" long_frame).
  vm_compute. reflexivity.
Defined.

(** The values the generator leaves to the noise stay below the limit. *)
Lemma clipped_below_limit (x : float) :
  is_nan x = false -> (VIB_ML_LIMIT <? np.clip1 x 3.0 4.8) = false.
Proof.
  intros Hx. pose proof (np_facts.clip1_within x 3.0 4.8 Hx eq_refl) as W.
  unfold np.within in W. apply andb_true_iff in W. destruct W as [_ W].
  apply F64_order.ltb_asym. apply (F64_order.leb_ltb_trans _ 4.8 _ W). reflexivity.
Qed.

(** The flags of a generated series. *)
Lemma generated_flags (rs : np.RandomSource) :
  numpy_contract rs = true ->
  above_threshold
    (map (fun i => np.clip1 (3.8 * 1.0 + np.normal_vib_ml rs i) 3.0 4.8) (seq 0 711)
     ++ map (fun j => VIB_ML_LIMIT + np.uniform_vib_ml rs j) (seq 0 10))%list
  = (repeat false 711 ++ repeat true 10)%list.
Proof.
  intros H. destruct (numpy_contract_inv rs H) as (_ & Hml & _).
  unfold above_threshold at 1. rewrite map_app. f_equal.
  - rewrite map_map.
    change (repeat false 711) with (repeat false (List.length (seq 0 711))).
    rewrite <- map_const. apply map_ext_in. intros i Hi. apply in_seq in Hi.
    apply clipped_below_limit.
    eapply F64.add_finite_not_nan; [vm_compute; reflexivity|apply Hml; lia].
  - now apply injected_flags.
Qed.

(** X5. In a generated series the flags are set on the last ten samples
    and on no other: the 711 values the generator leaves to the noise are
    clipped to at most 4.8, below the limit 5.0, and the ten injected ones
    exceed it. *)
Theorem X5_generated_flags_are_the_last_ten :
  forall (np_sin : float -> float) (rs : np.RandomSource) (selected_page : string),
    numpy_contract rs = true ->
    exists (df : DataFrame) (page : list Widget),
      script np_sin rs selected_page = Ok (df, page)
      /\ Above_Threshold df = Some (repeat false 711 ++ repeat true 10)%list
      /\ Forall (fun x => (x <? VIB_ML_LIMIT) = true) (py.slice_to (-10) (Vibration_ML df))
      /\ Forall (fun x => (VIB_ML_LIMIT <? x) = true) (recent (Vibration_ML df))
      /\ py.sum (above_threshold (Vibration_ML df)) = 10%nat.
Proof.
  intros np_sin rs selected_page H. unfold script.
  rewrite generate_fake_data_eq. cbn [bind].
  match goal with
  | |- context [create_page_layout selected_page ?d] =>
      destruct (create_page_layout_eq d) as (charts & _ & E);
      rewrite (E selected_page); clear E
  end.
  cbn [bind fst snd]. eexists. eexists. split; [reflexivity|].
  unfold evaluated, set_Above_Threshold. cbn [Above_Threshold Vibration_ML].
  rewrite (generated_flags rs H).
  destruct (numpy_contract_inv rs H) as (_ & Hml & Hu).
  split; [reflexivity|]. unfold recent.
  rewrite py_facts.slice_to_app10, py_facts.slice_from_app10
    by now rewrite length_map, length_seq.
  split; [|split; [|reflexivity]].
  - apply Forall_forall. intros x Hx. apply in_map_iff in Hx.
    destruct Hx as (i & <- & Hi). apply in_seq in Hi.
    assert (N : is_nan (3.8 * 1.0 + np.normal_vib_ml rs i) = false)
      by (eapply F64.add_finite_not_nan; [vm_compute; reflexivity|apply Hml; lia]).
    pose proof (np_facts.clip1_within _ 3.0 4.8 N eq_refl) as W.
    unfold np.within in W. apply andb_true_iff in W. destruct W as [_ W].
    apply (F64_order.leb_ltb_trans _ 4.8 _ W). reflexivity.
  - apply Forall_forall. intros x Hx. apply in_map_iff in Hx.
    destruct Hx as (j & <- & Hj). apply in_seq in Hj.
    apply injected_value, Hu. lia.
Qed.

Lemma X5_witness :
  exists (df : DataFrame) (page : list Widget),
    script sin_example rs_example "Motor 1" = Ok (df, page)
    /\ Above_Threshold df = Some (repeat false 711 ++ repeat true 10)%list
    /\ Forall (fun x => (x <? VIB_ML_LIMIT) = true) (py.slice_to (-10) (Vibration_ML df))
    /\ Forall (fun x => (VIB_ML_LIMIT <? x) = true) (recent (Vibration_ML df))
    /\ py.sum (above_threshold (Vibration_ML df)) = 10%nat.
Proof.
  apply (X5_generated_flags_are_the_last_ten sin_example rs_example "Motor 1").
  vm_compute. reflexivity.
Defined.

(** X6. On the page of a generated series the red trace of the third chart
    is the ten injected samples, at the last ten timestamps, and the blue
    trace is the 711 samples before them. *)
Theorem X6_generated_red_trace_is_the_tail :
  forall (np_sin : float -> float) (rs : np.RandomSource) (selected_page : string),
    numpy_contract rs = true ->
    exists (df : DataFrame) (fig1 fig2 fig3 : Figure) (rest : list Widget)
           (blue red : Scatter),
      script np_sin rs selected_page =
      Ok (df,
          selectbox "Select Page" pages :: title selected_page
          :: plotly_chart fig1 :: markdown "---" :: plotly_chart fig2 :: markdown "---"
          :: plotly_chart fig3 :: rest)
      /\ fig_traces fig3 = [blue; red]
      /\ sc_x red = recent (Date df) /\ sc_y red = recent (Vibration_ML df)
      /\ sc_y red = map (fun j => VIB_ML_LIMIT + np.uniform_vib_ml rs j) (seq 0 10)
      /\ sc_x blue = py.slice_to (-10) (Date df)
      /\ sc_y blue = py.slice_to (-10) (Vibration_ML df)
      /\ List.length (sc_y red) = 10%nat /\ List.length (sc_y blue) = 711%nat.
Proof.
  intros np_sin rs selected_page H. unfold script.
  rewrite generate_fake_data_eq. cbn [bind].
  unfold create_page_layout. cbv zeta.
  match goal with
  | |- context [alarm_indicator (set_Above_Threshold _ ?d)] =>
      change (set_Above_Threshold (above_threshold (Vibration_ML d)) d)
        with (evaluated d);
      rewrite (alarm_indicator_evaluated d); set (df := d)
  end.
  unfold evaluated at 1 3. unfold get_Above_Threshold, set_Above_Threshold.
  cbn [Above_Threshold bind fst snd app].
  do 7 eexists. split; [reflexivity|].
  cbn [fig_traces update_layout add_hline add_scatter px.line app].
  split; [reflexivity|].
  cbn [sc_x sc_y evaluated set_Above_Threshold Date Vibration_ML].
  assert (F : above_threshold (Vibration_ML df)
              = (repeat false 711 ++ repeat true 10)%list)
    by (apply generated_flags, H).
  rewrite F.
  destruct (where_last10 711 (Date df)) as [Dr Db];
    [cbn [Date df]; apply dates_length|].
  destruct (where_last10 711 (Vibration_ML df)) as [Mr Mb];
    [cbn [Vibration_ML df]; now rewrite length_app, !length_map, !length_seq|].
  unfold recent. rewrite Dr, Db, Mr, Mb.
  cbn [Vibration_ML df].
  rewrite py_facts.slice_from_app10, py_facts.slice_to_app10
    by now rewrite length_map, length_seq.
  repeat split; now rewrite length_map, length_seq.
Qed.

Lemma X6_witness :
  exists (df : DataFrame) (fig1 fig2 fig3 : Figure) (rest : list Widget)
         (blue red : Scatter),
    script sin_example rs_example "Motor 2" =
    Ok (df,
        selectbox "Select Page" pages :: title "Motor 2"
        :: plotly_chart fig1 :: markdown "---" :: plotly_chart fig2 :: markdown "---"
        :: plotly_chart fig3 :: rest)
    /\ fig_traces fig3 = [blue; red]
    /\ sc_x red = recent (Date df) /\ sc_y red = recent (Vibration_ML df)
    /\ sc_y red = map (fun j => VIB_ML_LIMIT + np.uniform_vib_ml rs_example j) (seq 0 10)
    /\ sc_x blue = py.slice_to (-10) (Date df)
    /\ sc_y blue = py.slice_to (-10) (Vibration_ML df)
    /\ List.length (sc_y red) = 10%nat /\ List.length (sc_y blue) = 711%nat.
Proof.
  apply (X6_generated_red_trace_is_the_tail sin_example rs_example "Motor 2").
  vm_compute. reflexivity.
Defined.

(** X7. In a generated series no Vibration-A value reaches the ISO limit
    of its chart: the values are clipped to at most 6.5, below 7.1. *)
Theorem X7_vibration_iso_stays_below_its_limit :
  forall (np_sin : float -> float) (rs : np.RandomSource),
    numpy_contract rs = true ->
    exists df : DataFrame,
      generate_fake_data np_sin rs = Ok df
      /\ Forall (fun x => (x <? VIB_ISO_LIMIT) = true) (Vibration_ISO df)
      /\ Forall (fun x => (VIB_ISO_LIMIT <=? x) = false) (Vibration_ISO df).
Proof.
  intros np_sin rs H. destruct (numpy_contract_inv rs H) as (Hiso & _ & _).
  eexists. split; [apply generate_fake_data_eq|].
  cbn [Vibration_ISO].
  assert (B : forall i, (i < 721)%nat ->
              (np.clip1 (4.5 * 1.0 + np.normal_vib_iso rs i) 3.5 6.5 <? VIB_ISO_LIMIT)
              = true).
  { intros i Hi.
    assert (N : is_nan (4.5 * 1.0 + np.normal_vib_iso rs i) = false)
      by (eapply F64.add_finite_not_nan; [vm_compute; reflexivity|now apply Hiso]).
    pose proof (np_facts.clip1_within _ 3.5 6.5 N eq_refl) as W.
    unfold np.within in W. apply andb_true_iff in W. destruct W as [_ W].
    apply (F64_order.leb_ltb_trans _ 6.5 _ W). reflexivity. }
  split; apply Forall_forall; intros x Hx; apply in_map_iff in Hx;
    destruct Hx as (i & <- & Hi); apply in_seq in Hi.
  - apply B. lia.
  - apply F64_order.ltb_not_leb, B. lia.
Qed.

Lemma X7_witness :
  exists df : DataFrame,
    generate_fake_data sin_example rs_example = Ok df
    /\ Forall (fun x => (x <? VIB_ISO_LIMIT) = true) (Vibration_ISO df)
    /\ Forall (fun x => (VIB_ISO_LIMIT <=? x) = false) (Vibration_ISO df).
Proof.
  apply (X7_vibration_iso_stays_below_its_limit sin_example rs_example).
  vm_compute. reflexivity.
Defined.

(** Two arrays read index by index over one range are equal exactly when
    they agree at every index of the range. *)
Lemma draws_agree (f g : nat -> float) (n : nat) :
  map f (seq 0 n) = map g (seq 0 n) -> forall i, (i < n)%nat -> f i = g i.
Proof.
  intros H i Hi. apply (ext_in_map H). apply in_seq. lia.
Qed.

(** X8. The Vibration-B column is a function of the uniform draws and of
    the first 711 normal deviates drawn for it: the ten deviates drawn for
    the last ten samples are overwritten, and neither [np.sin] nor the
    draws of the other channels reach the column. *)
Theorem X8_vibration_ml_ignores_the_overwritten_noise :
  forall (np_sin1 np_sin2 : float -> float) (rs1 rs2 : np.RandomSource),
    py.slice_to (-10)
      (np.random_normal (np.normal_vib_ml rs1) 0 0.25 (List.length dates))
    = py.slice_to (-10)
        (np.random_normal (np.normal_vib_ml rs2) 0 0.25 (List.length dates)) ->
    np.random_uniform (np.uniform_vib_ml rs1) 0.2 0.8 10
    = np.random_uniform (np.uniform_vib_ml rs2) 0.2 0.8 10 ->
    exists df1 df2 : DataFrame,
      generate_fake_data np_sin1 rs1 = Ok df1
      /\ generate_fake_data np_sin2 rs2 = Ok df2
      /\ Vibration_ML df1 = Vibration_ML df2.
Proof.
  intros np_sin1 np_sin2 rs1 rs2 Hn Hu.
  unfold np.random_normal, np.random_uniform in *.
  rewrite !py_facts.slice_to_last10, !length_map, !length_seq, dates_length in Hn.
  rewrite !firstn_map, !np_facts.firstn_seq in Hn.
  change (Nat.min (721 - 10) 721) with 711%nat in Hn.
  pose proof (draws_agree _ _ _ Hn) as An. pose proof (draws_agree _ _ _ Hu) as Au.
  eexists. eexists.
  split; [apply generate_fake_data_eq|]. split; [apply generate_fake_data_eq|].
  cbn [Vibration_ML]. f_equal; apply map_ext_in; intros i Hi; apply in_seq in Hi.
  - rewrite An by lia. reflexivity.
  - rewrite Au by lia. reflexivity.
Qed.

Lemma X8_witness :
  exists df1 df2 : DataFrame,
    generate_fake_data sin_example rs_example = Ok df1
    /\ generate_fake_data sin_other rs_other = Ok df2
    /\ Vibration_ML df1 = Vibration_ML df2.
Proof.
  apply (X8_vibration_ml_ignores_the_overwritten_noise
           sin_example sin_other rs_example rs_other);
    vm_compute; reflexivity.
Defined.

(** X9. The draws made for Vibration-B reach no other column: two runs
    that get the same temperature and Vibration-A deviates produce the same
    dates, temperatures and Vibration-A values, whatever they draw for
    Vibration-B. *)
Theorem X9_other_columns_ignore_the_ml_draws :
  forall (np_sin : float -> float) (rs1 rs2 : np.RandomSource),
    np.random_normal (np.normal_temperature rs1) 0 2 (List.length dates)
    = np.random_normal (np.normal_temperature rs2) 0 2 (List.length dates) ->
    np.random_normal (np.normal_vib_iso rs1) 0 0.3 (List.length dates)
    = np.random_normal (np.normal_vib_iso rs2) 0 0.3 (List.length dates) ->
    exists df1 df2 : DataFrame,
      generate_fake_data np_sin rs1 = Ok df1
      /\ generate_fake_data np_sin rs2 = Ok df2
      /\ Date df1 = Date df2
      /\ Temperature df1 = Temperature df2
      /\ Vibration_ISO df1 = Vibration_ISO df2.
Proof.
  intros np_sin rs1 rs2 Ht Hi.
  unfold np.random_normal in *. rewrite dates_length in Ht, Hi.
  pose proof (draws_agree _ _ _ Ht) as At. pose proof (draws_agree _ _ _ Hi) as Ai.
  eexists. eexists.
  split; [apply generate_fake_data_eq|]. split; [apply generate_fake_data_eq|].
  cbn [Date Temperature Vibration_ISO]. split; [reflexivity|].
  split; apply map_ext_in; intros i Hin; apply in_seq in Hin.
  - rewrite At by lia. reflexivity.
  - rewrite Ai by lia. reflexivity.
Qed.

Lemma X9_witness :
  exists df1 df2 : DataFrame,
    generate_fake_data sin_example rs_example = Ok df1
    /\ generate_fake_data sin_example rs_third = Ok df2
    /\ Date df1 = Date df2
    /\ Temperature df1 = Temperature df2
    /\ Vibration_ISO df1 = Vibration_ISO df2.
Proof.
  apply (X9_other_columns_ignore_the_ml_draws sin_example rs_example rs_third);
    vm_compute; reflexivity.
Defined.

(** X10. The alarm of a generated page is decided by the ten uniform draws
    alone: two runs that get the same uniform draws show the same alarm,
    with the same last value, distance and count, whatever noise they draw
    and whatever [np.sin] is. *)
Theorem X10_generated_alarm_depends_on_uniform_draws :
  forall (np_sin1 np_sin2 : float -> float) (rs1 rs2 : np.RandomSource)
         (selected_page : string),
    np.random_uniform (np.uniform_vib_ml rs1) 0.2 0.8 10
    = np.random_uniform (np.uniform_vib_ml rs2) 0.2 0.8 10 ->
    exists (df1 df2 : DataFrame) (charts1 charts2 alarm : list Widget),
      script np_sin1 rs1 selected_page =
      Ok (df1,
          selectbox "Select Page" pages :: title selected_page
          :: (charts1 ++ alarm
              ++ [ button ("Analyze " ++ selected_page) ("btn_" ++ selected_page) ])%list)
      /\ script np_sin2 rs2 selected_page =
         Ok (df2,
             selectbox "Select Page" pages :: title selected_page
             :: (charts2 ++ alarm
                 ++ [ button ("Analyze " ++ selected_page)
                             ("btn_" ++ selected_page) ])%list)
      /\ alarm_indicator df1 = Ok alarm
      /\ alarm_indicator df2 = Ok alarm
      /\ recent (Vibration_ML df1) = recent (Vibration_ML df2).
Proof.
  intros np_sin1 np_sin2 rs1 rs2 selected_page Hu. unfold script.
  rewrite !generate_fake_data_eq. cbn [bind].
  match goal with
  | |- context [create_page_layout selected_page ?d1] =>
      destruct (create_page_layout_eq d1) as (charts1 & _ & E1);
      rewrite (E1 selected_page); clear E1; set (df1 := d1)
  end.
  match goal with
  | |- context [create_page_layout selected_page ?d2] =>
      destruct (create_page_layout_eq d2) as (charts2 & _ & E2);
      rewrite (E2 selected_page); clear E2; set (df2 := d2)
  end.
  cbn [bind fst snd].
  assert (R : recent (Vibration_ML df1) = recent (Vibration_ML df2)).
  { unfold recent. cbn [Vibration_ML df1 df2].
    rewrite !py_facts.slice_from_app10 by now rewrite length_map, length_seq.
    unfold np.random_uniform in Hu.
    apply map_ext_in. intros j Hj. apply in_seq in Hj.
    rewrite (draws_agree _ _ _ Hu j) by lia. reflexivity. }
  exists (evaluated df1), (evaluated df2), charts1, charts2. eexists.
  rewrite !alarm_indicator_evaluated.
  rewrite (alarm_same_window _ _ R).
  repeat split. exact R.
Qed.

Lemma X10_witness :
  exists (df1 df2 : DataFrame) (charts1 charts2 alarm : list Widget),
    script sin_example rs_example "Motor 1" =
    Ok (df1,
        selectbox "Select Page" pages :: title "Motor 1"
        :: (charts1 ++ alarm
            ++ [ button ("Analyze " ++ "Motor 1") ("btn_" ++ "Motor 1") ])%list)
    /\ script sin_other rs_other "Motor 1" =
       Ok (df2,
           selectbox "Select Page" pages :: title "Motor 1"
           :: (charts2 ++ alarm
               ++ [ button ("Analyze " ++ "Motor 1") ("btn_" ++ "Motor 1") ])%list)
    /\ alarm_indicator df1 = Ok alarm
    /\ alarm_indicator df2 = Ok alarm
    /\ recent (Vibration_ML df1) = recent (Vibration_ML df2).
Proof.
  apply (X10_generated_alarm_depends_on_uniform_draws
           sin_example sin_other rs_example rs_other "Motor 1").
  vm_compute. reflexivity.
Defined.

End extras.
